(** * Diario App: a shallow embedding of [app.py] and its specification

    [app.py] is a Streamlit script: one top-to-bottom run per user
    interaction.  The embedding follows the script section by section
    (helpers, load, normalisation, score, today view, save handler, daily
    trend, export).  Widgets are inputs of the run, the messages the script
    shows are its output, and the remote spreadsheet and the credential file
    on disk are threaded as explicit state. *)

From Stdlib Require Import ZArith NArith Ascii String Sorted.
From Stdlib Require QArith Qcanon.
From stdpp Require Import base decidable option list gmap.

Local Open Scope N_scope.

(** ** Python values *)

Module Py.

(** A Python [str] is a sequence of Unicode code points. *)
Definition str := list N.

(** Source literals are written as UTF-8 text and decoded to code
    points. *)
Fixpoint utf8_decode (bs : list N) : str :=
  match bs with
  | [] => []
  | b :: r1 =>
    if b <? 0x80 then b :: utf8_decode r1
    else match r1 with
    | [] => [b]
    | c1 :: r2 =>
      if b <? 0xE0 then ((b - 0xC0) * 64 + (c1 - 0x80)) :: utf8_decode r2
      else match r2 with
      | [] => [b; c1]
      | c2 :: r3 =>
        if b <? 0xF0
        then ((b - 0xE0) * 4096 + (c1 - 0x80) * 64 + (c2 - 0x80)) :: utf8_decode r3
        else match r3 with
        | [] => [b; c1; c2]
        | c3 :: r4 =>
          ((b - 0xF0) * 262144 + (c1 - 0x80) * 4096 + (c2 - 0x80) * 64 + (c3 - 0x80))
            :: utf8_decode r4
        end
      end
    end
  end.

Fixpoint bytes_of (s : string) : list N :=
  match s with
  | EmptyString => []
  | String a r => N_of_ascii a :: bytes_of r
  end.

Definition lit (s : string) : str := utf8_decode (bytes_of s).
#[global] Arguments lit : simpl never.

(** [a == b] on two [str]. *)
Definition eqb (a b : str) : bool := bool_decide (a = b).

(** The characters [str.strip()] removes: those of [str.isspace]. *)
Definition isspace (c : N) : bool :=
  ((0x09 <=? c) && (c <=? 0x0D)) || ((0x1C <=? c) && (c <=? 0x20))
  || (c =? 0x85) || (c =? 0xA0) || (c =? 0x1680)
  || ((0x2000 <=? c) && (c <=? 0x200A))
  || (c =? 0x2028) || (c =? 0x2029) || (c =? 0x202F) || (c =? 0x205F)
  || (c =? 0x3000).

Fixpoint lstrip (s : str) : str :=
  match s with
  | [] => []
  | c :: r => if isspace c then lstrip r else s
  end.

Definition rstrip (s : str) : str := rev (lstrip (rev s)).

Definition strip (s : str) : str := rstrip (lstrip s).

(** [needle in hay]: substring test. *)
Fixpoint startswith (hay needle : str) : bool :=
  match needle, hay with
  | [], _ => true
  | _ :: _, [] => false
  | n :: needle', h :: hay' => (n =? h) && startswith hay' needle'
  end.

Fixpoint contains (needle hay : str) : bool :=
  startswith hay needle ||
  match hay with
  | [] => false
  | _ :: hay' => contains needle hay'
  end.

(** [str.lower()] restricted to the Basic Latin and Latin-1 blocks; code
    points outside them are left as they are.  The normaliser below takes
    the lowering function as a parameter; this instance is used to run it
    on concrete headers written in those blocks. *)
Definition lower_char (c : N) : N :=
  if (0x41 <=? c) && (c <=? 0x5A) then c + 32
  else if (0xC0 <=? c) && (c <=? 0xDE) && negb (c =? 0xD7) then c + 32
  else c.

Definition latin_lower (s : str) : str := map lower_char s.

(** Lexicographic order on code points: [a < b] on two [str]. *)
Fixpoint ltb (a b : str) : bool :=
  match a, b with
  | _, [] => false
  | [], _ :: _ => true
  | x :: a', y :: b' => (x <? y) || ((x =? y) && ltb a' b')
  end.

(** Exceptions carry the text [str(e)] shows. *)
Inductive exn := Exception (text : str).

Definition str_of_exn (e : exn) : str := let 'Exception t := e in t.

Inductive result (A : Type) :=
| Ok (a : A)
| Raise (e : exn).
Arguments Ok {A} a.
Arguments Raise {A} e.

End Py.

Notation "'u8' s" := (Py.lit s%string) (at level 1, s at level 0, only parsing).

(** ** Status markers and the point configuration (sidebar) *)

Definition DONE : Py.str := u8"✅".
Definition PARTIAL : Py.str := u8"⚠️".
Definition MISSED : Py.str := u8"❌".

Record points := {
  points_complete : Z;
  points_partial : Z;
  points_missed : Z;
}.

(** The three [st.sidebar.number_input] defaults. *)
Definition default_points : points :=
  {| points_complete := 10; points_partial := 5; points_missed := 0 |}.

(** The bounds [min_value]/[max_value] of the three number inputs. *)
Definition points_in_range (p : points) : Prop :=
  (1 <= points_complete p <= 100)%Z /\
  (0 <= points_partial p <= 100)%Z /\
  (0 <= points_missed p <= 100)%Z.

(** ** Cells

    The value of a number (an [int], a [bool] or a [float] other than
    [nan]): a rational or an infinity.  [==] and [<] between two numbers
    compare these values. *)

Abbreviation Qc := Qcanon.Qc.

#[global] Instance Qc_eq_decision : EqDecision Qc := Qcanon.Qc_eq_dec.

Inductive xnum :=
| NegInf
| Fin (q : Qc)
| PosInf.

#[global] Instance xnum_eq_dec : EqDecision xnum.
Proof. solve_decision. Defined.

Definition Qc_ltb (a b : Qc) : bool :=
  match Qcanon.Qccompare a b with
  | Lt => true
  | _ => false
  end.

(** [a < b] on two numbers. *)
Definition xnum_ltb (a b : xnum) : bool :=
  match a, b with
  | NegInf, NegInf => false
  | NegInf, _ => true
  | Fin _, NegInf => false
  | Fin p, Fin q => Qc_ltb p q
  | Fin _, PosInf => true
  | PosInf, _ => false
  end.

Definition xnum_of_Z (z : Z) : xnum := Fin (Qcanon.Q2Qc (QArith_base.inject_Z z)).

(** A number as the script sees it: the text [str] gives for it and its
    value.  [5], [5.0] and [True] are three numbers; the first two have the
    same value and different texts. *)
Record num := mkNum {
  num_str : Py.str;
  num_val : xnum;
}.

#[global] Instance num_eq_dec : EqDecision num.
Proof. solve_decision. Defined.

(** A cell of a table or a value of a record: a [str], a number, or a
    missing value ([NaN]: what [read_csv] gives for an empty field and what
    pandas puts where a record has no key). *)
Inductive cell :=
| Str (s : Py.str)
| Num (x : num)
| NaN.

#[global] Instance cell_eq_dec : EqDecision cell.
Proof. solve_decision. Defined.

(** [str(c)] *)
Definition py_str (c : cell) : Py.str :=
  match c with
  | Str s => s
  | Num x => num_str x
  | NaN => u8"nan"
  end.

(** The lambda applied to the [Stato] column (line 127). *)
Definition punteggio_calcolato (p : points) (s : cell) : Z :=
  if Py.eqb (Py.strip (py_str s)) DONE then points_complete p
  else if Py.eqb (Py.strip (py_str s)) PARTIAL then points_partial p
  else if Py.eqb (Py.strip (py_str s)) MISSED then points_missed p
  else 0%Z.

(** [pd.isna(c)] *)
Definition isna (c : cell) : bool :=
  match c with
  | NaN => true
  | Str _ | Num _ => false
  end.

(** [safe_score_from_state] (lines 45-52), with Python's [None] as [None].
    The script defines the function and does not call it. *)
Definition safe_score_from_state (s : cell) : option Z :=
  if isna s || bool_decide (s = Str []) then None
  else
    let s := Py.strip (py_str s) in
    if Py.eqb s DONE then Some 10%Z
    else if Py.eqb s PARTIAL then Some 5%Z
    else if Py.eqb s MISSED then Some 0%Z
    else None.


(** ** Tables ([pandas.DataFrame])

    A frame is a row count and a list of named columns, in column order.
    Labels may repeat, as in pandas. *)

Record DataFrame := mkDF {
  df_len : nat;
  df_data : list (Py.str * list cell);
}.

(** [pd.DataFrame()] *)
Definition empty_frame : DataFrame := mkDF 0 [].

(** [df.columns] *)
Definition columns (df : DataFrame) : list Py.str := map fst (df_data df).

(** [df.empty]: some axis has length zero. *)
Definition empty (df : DataFrame) : bool :=
  (df_len df =? 0)%nat || bool_decide (df_data df = []).

(** [df.rename(columns=m)]: labels found in [m] are replaced, the others
    and all data are kept in place. *)
Definition rename (m : gmap Py.str Py.str) (df : DataFrame) : DataFrame :=
  mkDF (df_len df)
       (map (fun c => (default c.1 (m !! c.1), c.2)) (df_data df)).

(** [df[c] = v] with a scalar [v]: an existing label is overwritten in
    place, a new one is appended as the last column. *)
Definition setitem_scalar (c : Py.str) (v : cell) (df : DataFrame) : DataFrame :=
  if bool_decide (c ∈ columns df)
  then mkDF (df_len df)
            (map (fun x => if Py.eqb x.1 c then (x.1, replicate (df_len df) v) else x)
                 (df_data df))
  else mkDF (df_len df) (df_data df ++ [(c, replicate (df_len df) v)]).

(** The columns carrying label [c], in order. *)
Definition labelled (c : Py.str) (df : DataFrame) : list (list cell) :=
  map snd (filter (fun x => x.1 = c) (df_data df)).

(** [df[c]] as a Series: defined when the label is carried by exactly one
    column.  A repeated label yields a frame, not a Series. *)
Definition series (c : Py.str) (df : DataFrame) : option (list cell) :=
  match labelled c df with
  | [s] => Some s
  | _ => None
  end.

(** Every column holds one cell per row. *)
Definition well_formed (df : DataFrame) : Prop :=
  Forall (fun c => length c.2 = df_len df) (df_data df).

(** [df[labels]] for a list of labels: for each label in turn, the columns
    that carry it. *)
Definition getitem_list (labels : list Py.str) (df : DataFrame) : DataFrame :=
  mkDF (df_len df)
       (flat_map (fun l => filter (fun c => c.1 = l) (df_data df)) labels).

(** [df.head()]: the first five rows. *)
Definition df_head (df : DataFrame) : DataFrame :=
  mkDF (Nat.min 5 (df_len df)) (map (fun c => (c.1, take 5 c.2)) (df_data df)).


(** ** Normalisation (lines 103-123) *)

Definition expected_cols : list Py.str :=
  [u8"Data"; u8"Giorno"; u8"Ora"; u8"Attività"; u8"Materia"; u8"Tipo";
   u8"Stato"; u8"Punteggio"; u8"Note"].

(** The [if]/[elif] chain on the lowered header. *)
Definition canonical_of (lc : Py.str) : option Py.str :=
  if Py.contains u8"data" lc then Some u8"Data"
  else if Py.contains u8"gior" lc then Some u8"Giorno"
  else if Py.contains u8"ora" lc then Some u8"Ora"
  else if Py.contains u8"attiv" lc then Some u8"Attività"
  else if Py.contains u8"mater" lc then Some u8"Materia"
  else if Py.contains u8"tipo" lc then Some u8"Tipo"
  else if Py.contains u8"stat" lc then Some u8"Stato"
  else if Py.contains u8"punt" lc then Some u8"Punteggio"
  else if Py.contains u8"note" lc then Some u8"Note"
  else None.

Section Normalizer.

(** [str.lower]. *)
Variable lower : Py.str -> Py.str.

(** The label a source column carries after the renaming step: its
    canonical label when the table is not empty and the lowered header
    holds a fragment, its own label otherwise. *)
Definition new_label (df_raw : DataFrame) (c : Py.str) : Py.str :=
  if empty df_raw then c
  else default c (canonical_of (lower (Py.strip c))).

(** One iteration of the loop that fills [col_map]. *)
Definition col_map_step (m : gmap Py.str Py.str) (c : Py.str) : gmap Py.str Py.str :=
  match canonical_of (lower (Py.strip c)) with
  | Some k => <[c := k]> m
  | None => m
  end.

Definition col_map (df_raw : DataFrame) : gmap Py.str Py.str :=
  foldl col_map_step ∅ (if empty df_raw then [] else columns df_raw).

(** One iteration of the loop over [expected_cols]. *)
Definition ensure_col (df : DataFrame) (c : Py.str) : DataFrame :=
  if bool_decide (c ∈ columns df) then df else setitem_scalar c (Str []) df.

(** [df_raw] after the normalisation block. *)
Definition normalize (df_raw : DataFrame) : DataFrame :=
  let m := col_map df_raw in
  let renamed := if bool_decide (m = ∅) then df_raw else rename m df_raw in
  foldl ensure_col renamed expected_cols.

End Normalizer.

(** ** Score column (lines 126-127)

    [df = df_raw.copy()] followed by
    [df["Punteggio_calcolato"] = df["Stato"].apply(...)].  The new column
    holds integers, so it is kept beside the text columns.  With a repeated
    [Stato] label [df["Stato"]] is a frame, the result of [apply] is indexed
    by label and the assignment raises. *)

Definition SCORE_COL : Py.str := u8"Punteggio_calcolato".
Definition PARSED_COL : Py.str := u8"Data_parsed".

Definition score_column (p : points) (df_raw : DataFrame) : option (list Z) :=
  s ← series u8"Stato" df_raw; Some (map (punteggio_calcolato p) s).

(** [total_points] and the "Ore segnate" metric (lines 136-139). *)
Definition total_points (scores : list Z) : Z := foldr Z.add 0%Z scores.
Definition ore_segnate (scores : list Z) : nat :=
  length (filter (fun z => (0 < z)%Z) scores).

(** ** Dates (lines 134, 146-151) *)

Record date := mkDate { year : Z; month : Z; day : Z }.

#[global] Instance date_eq_dec : EqDecision date.
Proof. solve_decision. Defined.

(** [d1 < d2] on [datetime.date]. *)
Definition date_ltb (a b : date) : bool :=
  (year a <? year b)%Z
  || ((year a =? year b)%Z
      && ((month a <? month b)%Z
          || ((month a =? month b)%Z && (day a <? day b)%Z))).

(** An element of [pd.to_datetime(...).dt.date]: a date or [NaT]. *)
Inductive stamp :=
| Day (d : date)
| NaT.

#[global] Instance stamp_eq_dec : EqDecision stamp.
Proof. solve_decision. Defined.

(** The [Data_parsed] column: dates when the whole [Data] column was
    accepted, the raw column otherwise (the [except] branch). *)
Inductive parsed_column :=
| Dates (ds : list stamp)
| Opaque_text (raw : list cell).

Section Views.

(** [pd.to_datetime(col).dt.date] on a whole column: one day or [NaT] per
    cell, or [None] when the call raises because the column is not a column
    of dates. *)
Variable to_datetime : list cell -> option (list stamp).

(** Lines 146-149.  [None]: the [Data] label is repeated, so that
    [df["Data"]] is a frame; [to_datetime] raises on it and so does the
    assignment in the handler. *)
Definition data_parsed (df : DataFrame) : option parsed_column :=
  col ← series u8"Data" df;
  Some match to_datetime col with
       | Some ds => Dates ds
       | None => Opaque_text col
       end.

(** [df["Data_parsed"] == today], row by row.  A text never equals a
    date. *)
Definition is_today (today : date) (pc : parsed_column) : list bool :=
  match pc with
  | Dates ds =>
    map (fun s => match s with Day d => bool_decide (d = today) | NaT => false end) ds
  | Opaque_text raw => map (fun _ => false) raw
  end.

(** Positions of the rows of [oggi_df] in [df]. *)
Fixpoint positions (i : nat) (mask : list bool) : list nat :=
  match mask with
  | [] => []
  | b :: r => if b then i :: positions (S i) r else positions (S i) r
  end.

Definition oggi_df (today : date) (pc : parsed_column) : list nat :=
  positions 0 (is_today today pc).

End Views.

(** ** Daily trend (lines 198-203)

    [groupby(key)[...].sum()] followed by [sort_values(key)]: one entry per
    distinct key, in increasing key order.  Rows whose key is missing are
    dropped by [groupby].  The keys are the values of [Data_parsed]: dates,
    or, when the raw [Data] column was kept, its texts and numbers;
    [sort_values] compares them with [<], which raises [TypeError] between a
    text and a number. *)

Section GroupBy.

Context {K : Type} (ltb : K -> K -> bool).

(** Adds [v] to the group of [k] in a key-ordered table. *)
Fixpoint add_to_group (k : K) (v : Z) (g : list (K * Z)) : list (K * Z) :=
  match g with
  | [] => [(k, v)]
  | (k', v') :: r =>
    if ltb k k' then (k, v) :: g
    else if ltb k' k then (k', v') :: add_to_group k v r
    else (k', (v' + v)%Z) :: r
  end.

Definition groupby_sum (rows : list (K * Z)) : list (K * Z) :=
  foldl (fun g kv => add_to_group kv.1 kv.2 g) [] rows.

End GroupBy.

(** What a grouped table has to be. *)

Section Grouping.

Context {K : Type} `{!EqDecision K} (ltb : K -> K -> bool).

(** The sum of the values that [rows] holds under key [k]. *)
Definition group_total (k : K) (rows : list (K * Z)) : Z :=
  foldr (fun kv acc => if decide (kv.1 = k) then (kv.2 + acc)%Z else acc) 0%Z rows.

(** [g] is the grouping of [rows]: keys strictly increasing, one entry per
    key of [rows], holding the sum of that key's values. *)
Definition grouping (rows g : list (K * Z)) : Prop :=
  StronglySorted (fun a b => ltb a.1 b.1 = true) g
  /\ forall k v, (k, v) ∈ g <-> k ∈ map fst rows /\ v = group_total k rows.

End Grouping.

Inductive trend :=
| By_date (g : list (date * Z))
| By_text (g : list (Py.str * Z))
| By_number (g : list (xnum * Z)).

Definition is_text (c : cell) : bool :=
  match c with
  | Str _ => true
  | _ => false
  end.

Definition is_number (c : cell) : bool :=
  match c with
  | Num _ => true
  | _ => false
  end.

(** Pairs each row that has a key with its score; rows whose key is [NaT]
    or [NaN] are dropped.  [texted_rows] gives the rows keyed by a text and
    [numbered_rows] those keyed by a number, under the number's value. *)
Fixpoint dated_rows (ds : list stamp) (scores : list Z) : list (date * Z) :=
  match ds, scores with
  | Day d :: ds', z :: scores' => (d, z) :: dated_rows ds' scores'
  | NaT :: ds', _ :: scores' => dated_rows ds' scores'
  | _, _ => []
  end.

Fixpoint texted_rows (raw : list cell) (scores : list Z) : list (Py.str * Z) :=
  match raw, scores with
  | Str s :: raw', z :: scores' => (s, z) :: texted_rows raw' scores'
  | _ :: raw', _ :: scores' => texted_rows raw' scores'
  | _, _ => []
  end.

Fixpoint numbered_rows (raw : list cell) (scores : list Z) : list (xnum * Z) :=
  match raw, scores with
  | Num x :: raw', z :: scores' => (num_val x, z) :: numbered_rows raw' scores'
  | _ :: raw', _ :: scores' => numbered_rows raw' scores'
  | _, _ => []
  end.

(** Line 198.  [None]: the raw [Data] column was kept and holds both a text
    and a number, and [sort_values] raises [TypeError]. *)
Definition daily (pc : parsed_column) (scores : list Z) : option trend :=
  match pc with
  | Dates ds => Some (By_date (groupby_sum date_ltb (dated_rows ds scores)))
  | Opaque_text raw =>
    if negb (existsb is_number raw)
    then Some (By_text (groupby_sum Py.ltb (texted_rows raw scores)))
    else if negb (existsb is_text raw)
    then Some (By_number (groupby_sum xnum_ltb (numbered_rows raw scores)))
    else None
  end.

(** [daily.empty] *)
Definition trend_empty (t : trend) : bool :=
  match t with
  | By_date g => bool_decide (g = [])
  | By_text g => bool_decide (g = [])
  | By_number g => bool_decide (g = [])
  end.

(** The points plotted by the chart, in key order. *)
Definition trend_values (t : trend) : list Z :=
  match t with
  | By_date g => map snd g
  | By_text g => map snd g
  | By_number g => map snd g
  end.


(** ** What the script shows *)

Inductive message :=
| st_error (text : Py.str)
| st_info (text : Py.str)
| st_warning (text : Py.str)
| st_success (text : Py.str).

(** The texts of the messages (lines 42, 58, 95, 98, 177, 180, 182, 184 and
    203). *)
Definition CSV_ERROR : Py.str := u8"Errore nel leggere il foglio via CSV: ".
Definition NOT_AVAILABLE : Py.str := u8"gspread non installato o import fallito.".
Definition AUTH_ERROR : Py.str := u8"Errore autenticazione Google: ".
Definition UPLOAD_PROMPT : Py.str :=
  u8"Carica il JSON per abilitare scrittura. "
  ++ u8"In alternativa puoi usare la modalità READ_ONLY.".
Definition SAVED : Py.str := u8"✅ Stato aggiornato su Google Sheet".
Definition NOT_FOUND : Py.str :=
  u8"Non ho trovato la riga corrispondente per aggiornare.".
Definition WRITE_ERROR : Py.str := u8"Errore scrittura Google: ".
Definition NEEDS_FULL_RW : Py.str :=
  u8"Per salvare su Google Sheet attiva FULL_RW "
  ++ u8"e carica il JSON service account nella sidebar.".
Definition NO_TREND : Py.str := u8"Nessun dato per grafico punti.".

Inductive trend_view :=
| plotly_chart (t : trend)
| placeholder (m : message).

(** Lines 198-203; [None] when line 198 raises. *)
Definition trend_panel (pc : parsed_column) (scores : list Z) : option trend_view :=
  d ← daily pc scores;
  Some (if negb (trend_empty d) then plotly_chart d
        else placeholder (st_info NO_TREND)).

(** The two views for a normalised table: [None] when the script stops, on
    a repeated [Stato] or [Data] label or, for the trend, on line 198. *)
Definition oggi_view (to_datetime : list cell -> option (list stamp)) (today : date)
    (df : DataFrame) : option (list nat) :=
  pc ← data_parsed to_datetime df; Some (oggi_df today pc).

Definition trend_view_of (to_datetime : list cell -> option (list stamp)) (p : points)
    (df : DataFrame) : option trend_view :=
  scores ← score_column p df;
  pc ← data_parsed to_datetime df;
  trend_panel pc scores.

(** An instance of [to_datetime], used to run the views on concrete
    tables.  A missing cell and the empty text are [NaT], [yyyy-mm-dd] with
    a valid month and day is that day, and any other cell makes the call
    raise.  It agrees with [pd.to_datetime] on columns whose cells are
    missing, empty, such ISO dates or texts without a digit, and on columns
    that hold numbers beside a text without a digit (the call raises on
    them). *)

Definition digit (c : N) : option Z :=
  if (0x30 <=? c) && (c <=? 0x39) then Some (Z.of_N (c - 0x30)) else None.

Definition number (cs : list N) : option Z :=
  foldl (fun acc c => a ← acc; d ← digit c; Some (a * 10 + d)%Z) (Some 0%Z) cs.

Definition is_leap (y : Z) : bool :=
  ((y mod 4 =? 0) && negb (y mod 100 =? 0) || (y mod 400 =? 0))%Z.

Definition days_in_month (y m : Z) : Z :=
  if (m =? 2)%Z then (if is_leap y then 29 else 28)%Z
  else if ((m =? 4) || (m =? 6) || (m =? 9) || (m =? 11))%Z then 30%Z
  else 31%Z.

Definition iso_date (s : Py.str) : option stamp :=
  match s with
  | [] => Some NaT
  | [y1; y2; y3; y4; h1; m1; m2; h2; d1; d2] =>
    if (h1 =? 0x2D) && (h2 =? 0x2D) then
      y ← number [y1; y2; y3; y4];
      m ← number [m1; m2];
      d ← number [d1; d2];
      if ((1 <=? m) && (m <=? 12) && (1 <=? d) && (d <=? days_in_month y m))%Z
      then Some (Day (mkDate y m d))
      else None
    else None
  | _ => None
  end.

Definition iso_cell (c : cell) : option stamp :=
  match c with
  | Str s => iso_date s
  | Num _ => None
  | NaN => Some NaT
  end.

Definition iso_to_datetime (col : list cell) : option (list stamp) :=
  mapM iso_cell col.

(** ** Missions panel (lines 188-194) *)

Definition NO_MISSIONS : Py.str :=
  u8"Missioni non trovate nel foglio. "
  ++ u8"Le puoi gestire direttamente nella tab Missioni del Google Sheet.".

Inductive missions_view :=
| st_dataframe (df : DataFrame)
| missions_info (m : message).

Section Missions.

Variable lower : Py.str -> Py.str.

(** The test of the comprehension on line 190. *)
Definition is_mission (c : Py.str) : bool :=
  Py.contains u8"mission" (lower c) || Py.contains u8"descr" (lower c).

Definition possible_mission_cols (df_raw : DataFrame) : list Py.str :=
  filter (fun c => is_mission c = true) (columns df_raw).

Definition missions_panel (df_raw : DataFrame) : missions_view :=
  if (1 <=? length (possible_mission_cols df_raw))%nat
  then st_dataframe (df_head (getitem_list (possible_mission_cols df_raw) df_raw))
  else missions_info (st_info NO_MISSIONS).

End Missions.


(** ** The remote spreadsheet (gspread)

    A worksheet is a grid of cells addressed by row and column, both
    counted from 1.  A cell is represented by its text, as
    [get_all_values] returns it; a cell that was never written is empty
    text. *)

Record worksheet := mkSheet {
  row_count : nat;
  col_count : nat;
  grid : gmap (nat * nat) Py.str;
}.

Definition cell_value (ws : worksheet) (r c : nat) : Py.str :=
  default [] (grid ws !! (r, c)).

(** The largest [i <= n] with [P i], or [0]. *)
Fixpoint last_such (P : nat -> bool) (n : nat) : nat :=
  match n with
  | O => O
  | S m => if P n then n else last_such P m
  end.

Definition filled (ws : worksheet) (r c : nat) : bool :=
  negb (bool_decide (cell_value ws r c = [])).

Definition used_rows (ws : worksheet) : nat :=
  last_such (fun r => existsb (filled ws r) (seq 1 (col_count ws))) (row_count ws).

Definition used_cols (ws : worksheet) : nat :=
  last_such (fun c => existsb (fun r => filled ws r c) (seq 1 (row_count ws)))
            (col_count ws).

(** [ws.get_all_values()]: the used range, row by row. *)
Definition get_all_values (ws : worksheet) : list (list Py.str) :=
  map (fun r => map (cell_value ws r) (seq 1 (used_cols ws))) (seq 1 (used_rows ws)).

(** The header row: the first row of the used range. *)
Definition header (ws : worksheet) : list Py.str :=
  map (cell_value ws 1) (seq 1 (used_cols ws)).

(** A Python [dict] with text keys, in insertion order. *)
Definition dict := list (Py.str * cell).

(** [d.get(k, dflt)] *)
Fixpoint dict_get (k : Py.str) (dflt : cell) (d : dict) : cell :=
  match d with
  | [] => dflt
  | (k', v) :: r => if Py.eqb k' k then v else dict_get k dflt r
  end.

(** [ws.get_all_records()]: the first row gives the keys, every further row
    of the used range gives one record, [dict(zip(keys, row))], the texts
    of the row having gone through [numericise], which turns the text of a
    number into that number and leaves any other text as it is.  [None]: the
    names in the header row are not all different, and the call raises. *)
Definition get_all_records (numericise : Py.str -> cell) (ws : worksheet)
  : option (list dict) :=
  match get_all_values ws with
  | [] => Some []
  | keys :: rows =>
    if bool_decide (NoDup keys)
    then Some (map (fun row => zip keys (map numericise row)) rows)
    else None
  end.

(** [ws.update_cell(r, c, v)] on the grid; [None] outside the grid, where
    the service refuses the call. *)
Definition update_cell (r c : nat) (v : Py.str) (ws : worksheet) : option worksheet :=
  if ((1 <=? r) && (r <=? row_count ws) && (1 <=? c) && (c <=? col_count ws))%nat
  then Some (mkSheet (row_count ws) (col_count ws) (<[(r, c) := v]> (grid ws)))
  else None.

(** [pd.DataFrame(data)] for a list of records: the keys of the records,
    in order of first appearance, become the columns; a record without a
    key gives a missing value.  pandas then settles the type of each column
    from the values it holds, which may change them (a column of [8] and
    [9.5] becomes a column of [8.0] and [9.5]): [column_values] is that
    conversion of one column. *)
Definition add_keys (ks : list Py.str) (d : dict) : list Py.str :=
  foldl (fun ks' kv => if bool_decide (kv.1 ∈ ks') then ks' else ks' ++ [kv.1]) ks d.

Definition record_keys (data : list dict) : list Py.str := foldl add_keys [] data.

Definition frame_of_records (column_values : list cell -> list cell)
    (data : list dict) : DataFrame :=
  mkDF (length data)
       (map (fun k => (k, column_values (map (dict_get k NaN) data)))
            (record_keys data)).

(** ** The state a run works on

    The credential file on disk, the remote service and the messages shown
    so far.  Remote calls are logged in order.  [served] bounds the remote
    calls that still go through ([None]: no failure); the texts of the
    exceptions the libraries raise are part of the environment, and so are
    the two conversions of values that gspread and pandas apply. *)

Inductive api_call :=
| Open_by_key
| Sheet1
| Get_all_records
| Update_cell (r c : nat) (v : Py.str).

Record environment := mkEnv {
  accepts : list N -> bool;
  credential_error : Py.exn;
  transport_error : Py.exn;
  grid_error : Py.exn;
  header_error : Py.exn;
  csv_export : Py.result DataFrame;
  numericise : Py.str -> cell;
  column_values : list cell -> list cell;
}.

Record world := mkWorld {
  env : environment;
  service_account_json : option (list N);
  served : option nat;
  first_sheet : worksheet;
  log : list api_call;
  screen : list message;
}.

Definition set_file (f : option (list N)) (w : world) : world :=
  mkWorld (env w) f (served w) (first_sheet w) (log w) (screen w).

Definition set_served (n : option nat) (w : world) : world :=
  mkWorld (env w) (service_account_json w) n (first_sheet w) (log w) (screen w).

Definition set_sheet (ws : worksheet) (w : world) : world :=
  mkWorld (env w) (service_account_json w) (served w) ws (log w) (screen w).

Definition set_log (l : list api_call) (w : world) : world :=
  mkWorld (env w) (service_account_json w) (served w) (first_sheet w) l (screen w).

Definition set_screen (s : list message) (w : world) : world :=
  mkWorld (env w) (service_account_json w) (served w) (first_sheet w) (log w) s.

(** Statements of the script: they read and change the state and either
    return or raise. *)
Definition io (A : Type) : Type := world -> Py.result A * world.

#[global] Instance io_ret : MRet io := fun _ a w => (Py.Ok a, w).

#[global] Instance io_bind : MBind io := fun _ _ k m w =>
  match m w with
  | (Py.Ok a, w') => k a w'
  | (Py.Raise e, w') => (Py.Raise e, w')
  end.

Definition raise {A} (e : Py.exn) : io A := fun w => (Py.Raise e, w).

(** A step that only looks at the state, and one that only changes it. *)
Definition reads {A} (f : world -> Py.result A) : io A := fun w => (f w, w).
Definition writes (f : world -> world) : io unit := fun w => (Py.Ok tt, f w).

(** [try: body except Exception as e: handler e] *)
Definition try_except {A} (body : io A) (handler : Py.exn -> io A) : io A :=
  fun w =>
    match body w with
    | (Py.Ok a, w') => (Py.Ok a, w')
    | (Py.Raise e, w') => handler e w'
    end.

(** [st.error], [st.info], [st.warning], [st.success] *)
Definition show (m : message) : io unit :=
  writes (fun w => set_screen (screen w ++ [m]) w).

(** One remote call: logged, then served or failed. *)
Definition request (c : api_call) : io unit := fun w =>
  let w' := set_log (log w ++ [c]) w in
  match served w with
  | Some O => (Py.Raise (transport_error (env w)), w')
  | Some (S n) => (Py.Ok tt, set_served (Some n) w')
  | None => (Py.Ok tt, w')
  end.

(** ** Authentication (lines 55-63) *)

Definition get_gspread_service (GS_AVAILABLE : bool) : io unit :=
  if negb GS_AVAILABLE
  then raise (Py.Exception NOT_AVAILABLE)
  else reads (fun w =>
    match service_account_json w with
    | Some f => if accepts (env w) f then Py.Ok tt else Py.Raise (credential_error (env w))
    | None => Py.Raise (credential_error (env w))
    end).

(** [sh = client.open_by_key(SHEET_ID); ws = sh.sheet1] *)
Definition open_sheet : io unit :=
  _ ← request Open_by_key; request Sheet1.

Definition ws_get_all_records : io (list dict) :=
  _ ← request Get_all_records;
  reads (fun w =>
    match get_all_records (numericise (env w)) (first_sheet w) with
    | Some data => Py.Ok data
    | None => Py.Raise (header_error (env w))
    end).

Definition ws_update_cell (r c : nat) (v : Py.str) : io unit :=
  _ ← request (Update_cell r c v);
  ws ← reads (fun w =>
    match update_cell r c v (first_sheet w) with
    | Some ws => Py.Ok ws
    | None => Py.Raise (grid_error (env w))
    end);
  writes (set_sheet ws).

(** ** Load (lines 36-43 and 75-99) *)

Inductive mode :=
| READ_ONLY
| FULL_RW.

#[global] Instance mode_eq_dec : EqDecision mode.
Proof. solve_decision. Defined.

(** [read_sheet_csv]; [csv_export] is what [pd.read_csv] returns or raises
    for the export address (the 60-second cache of the result is not
    modelled). *)
Definition read_sheet_csv : io DataFrame :=
  try_except
    (reads (fun w => csv_export (env w)))
    (fun e =>
       _ ← show (st_error (CSV_ERROR ++ Py.str_of_exn e));
       mret empty_frame).

Definition load (m : mode) (GS_AVAILABLE : bool) (gsa_file : option (list N))
  : io DataFrame :=
  match m with
  | READ_ONLY => read_sheet_csv
  | FULL_RW =>
    match gsa_file with
    | Some f =>
      _ ← writes (set_file (Some f));
      try_except
        (_ ← get_gspread_service GS_AVAILABLE;
         _ ← open_sheet;
         data ← ws_get_all_records;
         reads (fun w => Py.Ok (frame_of_records (column_values (env w)) data)))
        (fun e =>
           _ ← show (st_error (AUTH_ERROR ++ Py.str_of_exn e));
           mret empty_frame)
    | None =>
      _ ← show (st_info UPLOAD_PROMPT);
      mret empty_frame
    end
  end.

(** ** Today cards and the save handler (lines 157-185) *)

(** [list(df.columns)] for the scored frame [df]: the columns of the
    normalised [df_raw], followed by the two computed columns unless their
    labels were already there. *)
Definition df_columns (df_raw : DataFrame) : list Py.str :=
  let cs := columns df_raw in
  let cs := if bool_decide (SCORE_COL ∈ cs) then cs else cs ++ [SCORE_COL] in
  if bool_decide (PARSED_COL ∈ cs) then cs else cs ++ [PARSED_COL].

(** [l.index(x)] *)
Fixpoint index_of (x : Py.str) (l : list Py.str) : option nat :=
  match l with
  | [] => None
  | y :: r => if Py.eqb y x then Some O else S <$> index_of x r
  end.

(** The sheet column the table in memory has as [Stato]: the position, from
    0, of the first name in the header row that the normaliser labels
    [Stato]. *)
Definition status_column (lower : Py.str -> Py.str) (ws : worksheet) : option nat :=
  index_of u8"Stato"
    (map (fun h => default h (canonical_of (lower (Py.strip h)))) (header ws)).

(** A row of the frame, as [iterrows] yields it.  [row[k]] is read with
    [dict_get]; this is the value of [row[k]] when the label [k] is carried
    by one column. *)
Definition row_of (df : DataFrame) (i : nat) : dict :=
  map (fun c => (c.1, nth i c.2 NaN)) (df_data df).

(** Truth value of a cell: an empty text and a number of value 0 are
    false. *)
Definition truthy (c : cell) : bool :=
  match c with
  | Str [] => false
  | Num x => negb (bool_decide (num_val x = xnum_of_Z 0))
  | _ => true
  end.

Definition STATE_OPTIONS : list Py.str := [u8""; DONE; PARTIAL; MISSED].

(** [st.selectbox(label, options, index)]: the option at [index] until the
    user picks one, then the option picked. *)
Definition selectbox (options : list Py.str) (index : nat) (picked : option nat) : Py.str :=
  nth (default index picked) options [].

(** Lines 163-164. *)
Definition new_state_of (row : dict) (picked : option nat) : Py.str :=
  let state := if truthy (dict_get u8"Stato" NaN row)
               then dict_get u8"Stato" NaN row else Str [] in
  selectbox STATE_OPTIONS 0 picked.

(** The test of line 175. *)
Definition same_key (rec row : dict) : bool :=
  Py.eqb (py_str (dict_get u8"Data" (Str []) rec)) (py_str (dict_get u8"Data" NaN row))
  && Py.eqb (py_str (dict_get u8"Ora" (Str []) rec)) (py_str (dict_get u8"Ora" NaN row)).

(** The [for ... else] of lines 174-180, [r_idx] counting from its start
    value. *)
Fixpoint patch_first (cols : list Py.str) (row : dict) (new_state : Py.str)
    (r_idx : nat) (all_values : list dict) : io unit :=
  match all_values with
  | [] => show (st_warning NOT_FOUND)
  | rec :: rest =>
    if same_key rec row then
      c ← match index_of u8"Stato" cols with
          | Some c => mret c
          | None => raise (Py.Exception u8"'Stato' is not in list")
          end;
      _ ← ws_update_cell r_idx (c + 1) new_state;
      show (st_success SAVED)
    else patch_first cols row new_state (S r_idx) rest
  end.

(** The body of [if cols[1].button("Salva")] (lines 166-184).  [cols] is
    [list(df.columns)]. *)
Definition salva (m : mode) (GS_AVAILABLE : bool) (cols : list Py.str)
    (row : dict) (new_state : Py.str) : io unit :=
  file ← reads (fun w => Py.Ok (service_account_json w));
  if bool_decide (m = FULL_RW) && GS_AVAILABLE && bool_decide (is_Some file) then
    try_except
      (_ ← get_gspread_service GS_AVAILABLE;
       _ ← open_sheet;
       all_values ← ws_get_all_records;
       patch_first cols row new_state 2 all_values)
      (fun e => show (st_error (WRITE_ERROR ++ Py.str_of_exn e)))
  else
    show (st_warning NEEDS_FULL_RW).

(** One card: the selector, then the button. *)
Definition card (m : mode) (GS_AVAILABLE : bool) (cols : list Py.str)
    (row : dict) (picked : option nat) (pressed : bool) : io unit :=
  let new_state := new_state_of row picked in
  if pressed then salva m GS_AVAILABLE cols row new_state else mret tt.

(** The text of line 153. *)
Definition NO_TODAY : Py.str :=
  u8"Nessuna riga per oggi trovata nel foglio. "
  ++ u8"Puoi comunque esplorare il planner generale qui sotto.".

(** The loop of line 157 over the rows of [oggi_df], given by their
    positions in the table.  Card [i] has the widgets [st_i] and [save_i]:
    [picked i] is what the user chose in the selector and [pressed i] tells
    whether the button was pressed. *)
Fixpoint cards (m : mode) (GS_AVAILABLE : bool) (cols : list Py.str)
    (df : DataFrame) (picked : nat -> option nat) (pressed : nat -> bool)
    (i : nat) (rows : list nat) : io unit :=
  match rows with
  | [] => mret tt
  | r :: rest =>
    _ ← card m GS_AVAILABLE cols (row_of df r) (picked i) (pressed i);
    cards m GS_AVAILABLE cols df picked pressed (S i) rest
  end.

(** Lines 152-185. *)
Definition oggi_panel (m : mode) (GS_AVAILABLE : bool) (cols : list Py.str)
    (df : DataFrame) (picked : nat -> option nat) (pressed : nat -> bool)
    (rows : list nat) : io unit :=
  if bool_decide (rows = []) then show (st_info NO_TODAY)
  else cards m GS_AVAILABLE cols df picked pressed 0%nat rows.

(** Calls that write to the sheet. *)
Definition is_update (c : api_call) : bool :=
  match c with
  | Update_cell _ _ _ => true
  | _ => false
  end.


(** ** Export (lines 208-214) *)

Record workbook := mkBook {
  engine : Py.str;
  datetime_format : Py.str;
  sheets : list (Py.str * list (list cell));
}.

(** [df.to_excel(writer, sheet_name, index=False)]: the header row, then one
    row per row of the frame. *)
Definition sheet_rows (df : DataFrame) : list (list cell) :=
  map (fun i => map (fun c => nth i c.2 NaN) (df_data df)) (seq 0 (df_len df)).

Definition to_excel (df : DataFrame) : list (list cell) :=
  map Str (columns df) :: sheet_rows df.

Definition export_xlsx (df_raw : DataFrame) : workbook :=
  mkBook u8"xlsxwriter" u8"yyyy-mm-dd" [(u8"Sheet1", to_excel df_raw)].

(** ** Sample inputs

    Concrete tables, a sheet and a state on which the properties below are
    run. *)

Local Open Scope nat_scope.

Definition two_columns : DataFrame :=
  mkDF 1 [(u8"Data", [Str u8"2024-01-01"]); (u8"Extra", [Str u8"x"])].

Definition two_date_columns : DataFrame :=
  mkDF 1 [(u8"data", [Str u8"2024-01-01"]); (u8"Data2", [Str u8"2024-02-02"])].

Definition mixed_dates : DataFrame :=
  mkDF 2 [(u8"Data", [Str u8"2026-11-03"; Str u8"boh"]);
          (u8"Stato", [Str DONE; Str PARTIAL])].

Definition text_dates : DataFrame :=
  mkDF 1 [(u8"Data", [Str u8"boh"]); (u8"Stato", [Str DONE])].

(** The number 5, and a table whose [Data] column holds it beside a
    text. *)
Definition five : num := mkNum u8"5" (xnum_of_Z 5).

Definition number_dates : DataFrame :=
  mkDF 2 [(u8"Data", [Num five; Str u8"boh"]);
          (u8"Stato", [Str DONE; Str PARTIAL])].

(** 3 November 2026, written day first. *)
Definition day_first_dates : DataFrame :=
  mkDF 1 [(u8"Data", [Str u8"03/11/2026"]); (u8"Stato", [Str DONE])].

(** A small sheet: two records share the key of the second data row. *)
Definition sample_sheet : worksheet :=
  mkSheet 6 9
    (list_to_map
       [((1, 1), u8"Data"); ((1, 2), u8"Ora"); ((1, 3), u8"Stato");
        ((2, 1), u8"2026-11-02"); ((2, 2), u8"08:00"); ((2, 3), DONE);
        ((3, 1), u8"2026-11-03"); ((3, 2), u8"08:00"); ((3, 3), PARTIAL);
        ((4, 1), u8"2026-11-03"); ((4, 2), u8"08:00"); ((4, 3), MISSED)]).

Definition sample_key : list N := [123; 34; 107; 34; 125]%N.

(** No cell of the sample sheets reads as a number: [numericise] leaves
    their texts as they are, and pandas keeps columns of texts as they
    are. *)
Definition sample_env : environment :=
  mkEnv (fun f => bool_decide (f = sample_key))
        (Py.Exception u8"invalid_grant")
        (Py.Exception u8"Connection aborted.")
        (Py.Exception u8"Range exceeds grid limits")
        (Py.Exception u8"the header row in the worksheet is not unique")
        (Py.Raise (Py.Exception u8"HTTP Error 404: Not Found"))
        Str id.

Definition sample_world : world :=
  mkWorld sample_env (Some sample_key) None sample_sheet [] [].

(** A sheet without a status column, the state around it and the table in
    memory after loading and normalising it. *)
Definition bare_sheet : worksheet :=
  mkSheet 6 9
    (list_to_map
       [((1, 1), u8"Data"); ((1, 2), u8"Ora");
        ((2, 1), u8"2026-11-03"); ((2, 2), u8"08:00")]).

Definition bare_world : world :=
  mkWorld sample_env (Some sample_key) None bare_sheet [] [].

Definition bare_frame : DataFrame :=
  normalize Py.latin_lower
    (frame_of_records id (default [] (get_all_records Str bare_sheet))).

Definition bare_row : dict := row_of bare_frame 0.

(** The table in memory after loading and normalising [sample_sheet]. *)
Definition sample_frame : DataFrame :=
  normalize Py.latin_lower
    (frame_of_records id (default [] (get_all_records Str sample_sheet))).

Definition sample_row : dict := row_of sample_frame 1.

Definition absent_row : dict :=
  [(u8"Data", Str u8"2026-11-03"); (u8"Ora", Str u8"21:00")].

(** The two headers named in the comment on line 189. *)
Definition missions_table : DataFrame :=
  mkDF 1 [(u8"Tipo Missione", [Str u8"studio"]); (u8"Descrizione", [Str u8"ripasso"])].

(** A table of headers only. *)
Definition headers_only : DataFrame := mkDF 0 [(u8"DATA", []); (u8"Stato", [])].


(** * Properties *)

(** ** Literals *)

Example markers_decoded :
  DONE = [0x2705]%N /\ PARTIAL = [0x26A0; 0xFE0F]%N /\ MISSED = [0x274C]%N.
Proof. repeat split; reflexivity. Qed.

Example expected_cols_decoded :
  nth 3 expected_cols [] = [0x41; 0x74; 0x74; 0x69; 0x76; 0x69; 0x74; 0xE0]%N.
Proof. reflexivity. Qed.

Example strip_example :
  Py.strip (u8"  ✅ " ++ [0x0A]%N) = DONE /\ Py.strip (u8" a b ") = u8"a b".
Proof. split; reflexivity. Qed.

(** ** Scorer *)

Example default_points_in_range : points_in_range default_points.
Proof. unfold points_in_range; simpl. lia. Qed.

Lemma eqb_eq (a b : Py.str) : Py.eqb a b = true <-> a = b.
Proof. unfold Py.eqb. apply bool_decide_eq_true. Qed.

Lemma eqb_neq (a b : Py.str) : Py.eqb a b = false <-> a <> b.
Proof. unfold Py.eqb. apply bool_decide_eq_false. Qed.

(** C1, as stated, fails: a marker with blanks around it is not the marker,
    yet it does not score [0]. *)
Lemma scorer_padded_marker :
  ~ (forall (p : points) (s : cell),
        py_str s <> DONE -> py_str s <> PARTIAL -> py_str s <> MISSED ->
        punteggio_calcolato p s = 0%Z).
Proof.
  intros H.
  specialize (H default_points (Str (u8" ✅"))).
  vm_compute in H.
  assert (E : 10%Z = 0%Z) by (apply H; discriminate).
  discriminate E.
Qed.

(** C1, amended: the score is decided by the status text with leading and
    trailing white space removed.  That text being the done, partial or
    missed marker gives the configured points of that marker, any other text
    gives [0]; in particular the bare markers score their points and the
    empty and the missing status score [0]. *)
Theorem scorer_table (p : points) (s : cell) :
  (punteggio_calcolato p (Str DONE) = points_complete p
   /\ punteggio_calcolato p (Str PARTIAL) = points_partial p
   /\ punteggio_calcolato p (Str MISSED) = points_missed p
   /\ punteggio_calcolato p (Str []) = 0%Z
   /\ punteggio_calcolato p NaN = 0%Z)
  /\ (Py.strip (py_str s) = DONE /\ punteggio_calcolato p s = points_complete p
      \/ Py.strip (py_str s) = PARTIAL /\ punteggio_calcolato p s = points_partial p
      \/ Py.strip (py_str s) = MISSED /\ punteggio_calcolato p s = points_missed p
      \/ (Py.strip (py_str s) ∉ [DONE; PARTIAL; MISSED]) /\ punteggio_calcolato p s = 0%Z).
Proof.
  split; [repeat split; reflexivity |].
  unfold punteggio_calcolato.
  destruct (Py.eqb (Py.strip (py_str s)) DONE) eqn:Hd.
  { left. split; [by apply eqb_eq | done]. }
  destruct (Py.eqb (Py.strip (py_str s)) PARTIAL) eqn:Hp.
  { right; left. split; [by apply eqb_eq | done]. }
  destruct (Py.eqb (Py.strip (py_str s)) MISSED) eqn:Hm.
  { right; right; left. split; [by apply eqb_eq | done]. }
  right; right; right. split; [| done].
  apply eqb_neq in Hd, Hp, Hm.
  rewrite !elem_of_cons, elem_of_nil. tauto.
Qed.

(** ** Normaliser *)

Lemma filter_iff_on {A} (P1 P2 : A -> Prop)
    `{!forall x, Decision (P1 x), !forall x, Decision (P2 x)} (l : list A) :
  (forall x, x ∈ l -> P1 x <-> P2 x) -> filter P1 l = filter P2 l.
Proof.
  induction l as [|a l IH]; intros Hiff; [done |].
  assert (IH' : filter P1 l = filter P2 l).
  { apply IH. intros x Hx. apply Hiff. by apply list_elem_of_further. }
  destruct (decide (P1 a)) as [Ha|Ha].
  - rewrite !filter_cons_True; [by rewrite IH' | | done].
    apply Hiff; [apply list_elem_of_here | done].
  - rewrite !filter_cons_False; [done | | done].
    intros Hb. apply Ha, Hiff; [apply list_elem_of_here | done].
Qed.

Section NormalizerFacts.

Variable lower : Py.str -> Py.str.

Lemma col_map_fold_lookup (l : list Py.str) (m : gmap Py.str Py.str) (c : Py.str) :
  foldl (col_map_step lower) m l !! c =
  match (if bool_decide (c ∈ l) then canonical_of (lower (Py.strip c)) else None) with
  | Some k => Some k
  | None => m !! c
  end.
Proof.
  revert m. induction l as [|a l IH]; intros m; cbn [foldl].
  { rewrite bool_decide_eq_false_2 by apply not_elem_of_nil. done. }
  rewrite IH. unfold col_map_step.
  destruct (decide (c = a)) as [->|Hne].
  - rewrite (bool_decide_eq_true_2 (a ∈ a :: l)) by apply list_elem_of_here.
    destruct (canonical_of (lower (Py.strip a))) as [k|] eqn:Hk.
    + rewrite lookup_insert_eq. by destruct (bool_decide (a ∈ l)).
    + by destruct (bool_decide (a ∈ l)).
  - assert (Hm : (match canonical_of (lower (Py.strip a)) with
                  | Some k => <[a:=k]> m
                  | None => m
                  end) !! c = m !! c).
    { destruct (canonical_of (lower (Py.strip a))); [by rewrite lookup_insert_ne | done]. }
    rewrite Hm.
    destruct (decide (c ∈ l)) as [Hin|Hin].
    + rewrite !bool_decide_eq_true_2; [done | by apply list_elem_of_further | done].
    + rewrite !bool_decide_eq_false_2; [done | | done].
      rewrite elem_of_cons. tauto.
Qed.

Lemma col_map_lookup (df_raw : DataFrame) (c : Py.str) :
  c ∈ columns df_raw ->
  default c (col_map lower df_raw !! c) = new_label lower df_raw c.
Proof.
  intros Hin. unfold col_map, new_label. rewrite col_map_fold_lookup.
  destruct (empty df_raw).
  - rewrite bool_decide_eq_false_2 by apply not_elem_of_nil.
    by rewrite lookup_empty.
  - rewrite bool_decide_eq_true_2 by done.
    destruct (canonical_of (lower (Py.strip c))); [done | by rewrite lookup_empty].
Qed.

Lemma rename_empty_map (df : DataFrame) : rename ∅ df = df.
Proof.
  destruct df as [n d]. unfold rename; simpl. f_equal.
  induction d as [|[c x] d IH]; simpl; [done |].
  rewrite lookup_empty. simpl. by rewrite IH.
Qed.

(** The renaming step keeps every column, and its data, in place. *)
Lemma renamed_data (df_raw : DataFrame) :
  let m := col_map lower df_raw in
  (if bool_decide (m = ∅) then df_raw else rename m df_raw) =
  mkDF (df_len df_raw)
       (map (fun c => (new_label lower df_raw c.1, c.2)) (df_data df_raw)).
Proof.
  intros m.
  assert (E : rename m df_raw =
              mkDF (df_len df_raw)
                   (map (fun c => (new_label lower df_raw c.1, c.2)) (df_data df_raw))).
  { unfold rename. f_equal. apply map_ext_in. intros [c x] Hin. simpl.
    f_equal. apply col_map_lookup.
    unfold columns. apply list_elem_of_In, in_map_iff. by exists (c, x). }
  case_bool_decide as Hm; [| done].
  rewrite <- E, Hm. by rewrite rename_empty_map.
Qed.

Lemma ensure_col_fold (l : list Py.str) (df : DataFrame) :
  NoDup l ->
  foldl ensure_col df l =
  mkDF (df_len df)
       (df_data df ++
        map (fun c => (c, replicate (df_len df) (Str [])))
            (filter (fun c => c ∉ columns df) l)).
Proof.
  revert df. induction l as [|a l IH]; intros df Hnd; cbn [foldl].
  { rewrite filter_nil. simpl. rewrite app_nil_r. by destruct df. }
  apply NoDup_cons in Hnd as [Ha Hnd].
  unfold ensure_col at 2. case_bool_decide as Hin.
  - rewrite IH by done. rewrite filter_cons_False by tauto. done.
  - unfold setitem_scalar. rewrite bool_decide_eq_false_2 by done.
    rewrite IH by done. simpl.
    rewrite filter_cons_True by done. simpl.
    rewrite <- app_assoc. simpl. do 4 f_equal.
    apply filter_iff_on. intros x Hx. unfold columns; simpl.
    rewrite map_app. simpl. rewrite not_elem_of_app, list_elem_of_singleton.
    split; [tauto |]. intros Hc. split; [done |]. by intros ->.
Qed.

Lemma expected_cols_nodup : NoDup expected_cols.
Proof. apply (bool_decide_unpack _). by vm_compute. Qed.

Lemma normalize_data (df_raw : DataFrame) :
  normalize lower df_raw =
  mkDF (df_len df_raw)
       (map (fun c => (new_label lower df_raw c.1, c.2)) (df_data df_raw)
        ++ map (fun c => (c, replicate (df_len df_raw) (Str [])))
               (filter (fun c => c ∉ map (new_label lower df_raw) (columns df_raw))
                       expected_cols)).
Proof.
  unfold normalize. rewrite renamed_data.
  rewrite ensure_col_fold by apply expected_cols_nodup.
  unfold columns; simpl. by rewrite !map_map.
Qed.

(** C2, amended: every source column stays in place with its data, under
    its canonical label when the table has a row and the lowered header
    holds a keyword fragment, under its own label otherwise; each canonical
    field that no column carries after the renaming is appended, in the
    canonical order, filled with empty text.  All nine canonical fields
    are among the columns of the result. *)
Theorem normalize_shape (df_raw : DataFrame) :
  df_len (normalize lower df_raw) = df_len df_raw
  /\ df_data (normalize lower df_raw) =
       map (fun c => (new_label lower df_raw c.1, c.2)) (df_data df_raw)
       ++ map (fun c => (c, replicate (df_len df_raw) (Str [])))
              (filter (fun c => c ∉ map (new_label lower df_raw) (columns df_raw))
                      expected_cols)
  /\ Forall (fun c => c ∈ columns (normalize lower df_raw)) expected_cols.
Proof.
  rewrite normalize_data. split; [done |]. split; [done |].
  apply Forall_forall. intros c Hc. unfold columns; simpl.
  rewrite map_app, !map_map; simpl. apply elem_of_app.
  destruct (decide (c ∈ map (fun x => new_label lower df_raw x.1) (df_data df_raw)))
    as [Hin|Hin]; [by left |].
  right. apply list_elem_of_In, in_map_iff. exists c. split; [done |].
  by apply list_elem_of_In, list_elem_of_filter.
Qed.

End NormalizerFacts.

Lemma two_hits {A} (P : A -> Prop) `{!forall x, Decision (P x)}
    (l : list A) (i j : nat) (x y : A) :
  i < j -> l !! i = Some x -> l !! j = Some y -> P x -> P y ->
  2 <= length (filter P l).
Proof.
  revert i j. induction l as [|a l IH]; intros i j Hij Hi Hj Px Py.
  { by rewrite lookup_nil in Hi. }
  destruct j as [|j]; [lia |].
  destruct i as [|i]; simpl in Hi, Hj.
  - injection Hi as ->. rewrite filter_cons_True by done. simpl.
    assert (Hy : y ∈ filter P l).
    { apply list_elem_of_filter. split; [done |]. by eapply list_elem_of_lookup_2. }
    destruct (filter P l); [by apply elem_of_nil in Hy | simpl; lia].
  - assert (2 <= length (filter P l)) by (apply (IH i j); [lia | done..]).
    rewrite filter_cons. destruct (decide (P a)); simpl; lia.
Qed.

Example normalize_two_columns :
  columns (normalize Py.latin_lower two_columns) =
  [u8"Data"; u8"Extra"; u8"Giorno"; u8"Ora"; u8"Attività"; u8"Materia";
   u8"Tipo"; u8"Stato"; u8"Punteggio"; u8"Note"].
Proof. vm_compute. reflexivity. Qed.

(** C2, as stated, fails. *)
Lemma normalize_keeps_unmatched :
  ~ (columns (normalize Py.latin_lower two_columns) ≡ₚ expected_cols).
Proof.
  intros Hp. apply Permutation_length in Hp. vm_compute in Hp. discriminate Hp.
Qed.

Example normalize_two_date_columns :
  df_data (normalize Py.latin_lower two_date_columns) =
  [(u8"Data", [Str u8"2024-01-01"]); (u8"Data", [Str u8"2024-02-02"]);
   (u8"Giorno", [Str []]); (u8"Ora", [Str []]); (u8"Attività", [Str []]);
   (u8"Materia", [Str []]); (u8"Tipo", [Str []]); (u8"Stato", [Str []]);
   (u8"Punteggio", [Str []]); (u8"Note", [Str []])].
Proof. vm_compute. reflexivity. Qed.

Section SameFragment.

Variable lower : Py.str -> Py.str.

Lemma normalize_lookup (df_raw : DataFrame) (i : nat) (c : Py.str) (d : list cell) :
  df_data df_raw !! i = Some (c, d) ->
  df_data (normalize lower df_raw) !! i = Some (new_label lower df_raw c, d).
Proof.
  intros Hi. rewrite normalize_data; simpl.
  rewrite lookup_app_l.
  - change (map ?f ?l) with (f <$> l). by rewrite list_lookup_fmap, Hi.
  - rewrite length_map. by eapply lookup_lt_Some.
Qed.

(** C3, amended: when the table has a row and two of its columns hold a
    fragment of the same canonical field, both are renamed to that field
    and both stay, each in its place with its own data; the result has the
    label twice and no single column for it. *)
Theorem normalize_same_fragment (df_raw : DataFrame) (i j : nat)
    (ci cj k : Py.str) (di dj : list cell) :
  empty df_raw = false ->
  i < j ->
  df_data df_raw !! i = Some (ci, di) ->
  df_data df_raw !! j = Some (cj, dj) ->
  canonical_of (lower (Py.strip ci)) = Some k ->
  canonical_of (lower (Py.strip cj)) = Some k ->
  df_data (normalize lower df_raw) !! i = Some (k, di)
  /\ df_data (normalize lower df_raw) !! j = Some (k, dj)
  /\ 2 <= length (labelled k (normalize lower df_raw))
  /\ series k (normalize lower df_raw) = None.
Proof.
  intros He Hij Hi Hj Hci Hcj.
  assert (Li : df_data (normalize lower df_raw) !! i = Some (k, di)).
  { rewrite (normalize_lookup _ _ _ _ Hi). unfold new_label. by rewrite He, Hci. }
  assert (Lj : df_data (normalize lower df_raw) !! j = Some (k, dj)).
  { rewrite (normalize_lookup _ _ _ _ Hj). unfold new_label. by rewrite He, Hcj. }
  assert (L2 : 2 <= length (labelled k (normalize lower df_raw))).
  { unfold labelled. rewrite length_map.
    by apply (two_hits _ _ i j (k, di) (k, dj)). }
  repeat split; [done.. |].
  unfold series. destruct (labelled k (normalize lower df_raw)) as [|a [|b r]];
    simpl in L2; [lia | lia | done].
Qed.

End SameFragment.

(** C3, as stated, fails: both date-like columns are kept, the earlier one
    first. *)
Lemma normalize_no_overwrite :
  ~ (labelled u8"Data" (normalize Py.latin_lower two_date_columns)
     = [[Str u8"2024-02-02"]]).
Proof. vm_compute. discriminate. Qed.

Lemma normalize_same_fragment_witness :
  df_data (normalize Py.latin_lower two_date_columns) !! 0
    = Some (u8"Data", [Str u8"2024-01-01"])
  /\ df_data (normalize Py.latin_lower two_date_columns) !! 1
    = Some (u8"Data", [Str u8"2024-02-02"])
  /\ 2 <= length (labelled u8"Data" (normalize Py.latin_lower two_date_columns))
  /\ series u8"Data" (normalize Py.latin_lower two_date_columns) = None.
Proof.
  apply (normalize_same_fragment Py.latin_lower two_date_columns 0 1
           u8"data" u8"Data2" u8"Data").
  - reflexivity.
  - lia.
  - reflexivity.
  - reflexivity.
  - reflexivity.
  - reflexivity.
Defined.


Example normalize_upper_case_headers :
  columns (normalize Py.latin_lower
             (mkDF 1 [(u8"DATA", [Str u8"2026-11-03"]); (u8"Orario", [Str u8"08:00"]);
                      (u8"Materia X", [Str u8"Storia"]); (u8"STATO!!", [Str DONE])]))
  = [u8"Data"; u8"Ora"; u8"Materia"; u8"Stato"; u8"Giorno"; u8"Attività"; u8"Tipo";
     u8"Punteggio"; u8"Note"].
Proof. vm_compute. reflexivity. Qed.

(** A table without rows is not renamed: the headers stay and the canonical
    fields are added beside them. *)
Example normalize_headers_only :
  columns (normalize Py.latin_lower (mkDF 0 [(u8"DATA", []); (u8"Stato", [])]))
  = [u8"DATA"; u8"Stato"; u8"Data"; u8"Giorno"; u8"Ora"; u8"Attività"; u8"Materia";
     u8"Tipo"; u8"Punteggio"; u8"Note"].
Proof. vm_compute. reflexivity. Qed.
(** ** Group-by *)

Section GroupByFacts.

Context {K : Type} `{!EqDecision K} (ltb : K -> K -> bool).

Hypothesis ltb_irrefl : forall a, ltb a a = false.
Hypothesis ltb_trans : forall a b c, ltb a b = true -> ltb b c = true -> ltb a c = true.
Hypothesis ltb_total : forall a b, ltb a b = false -> ltb b a = false -> a = b.

Lemma add_to_group_keys (k : K) (v : Z) (g : list (K * Z)) (x : K) :
  x ∈ map fst (add_to_group ltb k v g) <-> x = k \/ x ∈ map fst g.
Proof.
  induction g as [|[k' v'] g IH]; simpl.
  { rewrite list_elem_of_singleton, elem_of_nil. tauto. }
  destruct (ltb k k') eqn:H1; simpl.
  { rewrite !elem_of_cons. tauto. }
  destruct (ltb k' k) eqn:H2; simpl.
  { rewrite !elem_of_cons, IH. tauto. }
  rewrite !elem_of_cons. rewrite (ltb_total _ _ H1 H2). tauto.
Qed.

Lemma add_to_group_total (k : K) (v : Z) (g : list (K * Z)) (x : K) :
  group_total x (add_to_group ltb k v g) =
  (group_total x g + (if decide (k = x) then v else 0))%Z.
Proof.
  induction g as [|[k' v'] g IH]; simpl.
  { destruct (decide (k = x)); lia. }
  destruct (ltb k k') eqn:H1; simpl.
  { destruct (decide (k = x)), (decide (k' = x)); lia. }
  destruct (ltb k' k) eqn:H2; simpl.
  { rewrite IH. destruct (decide (k = x)), (decide (k' = x)); lia. }
  rewrite (ltb_total _ _ H1 H2).
  destruct (decide (k' = x)); lia.
Qed.

Lemma add_to_group_sorted (k : K) (v : Z) (g : list (K * Z)) :
  StronglySorted (fun a b => ltb a.1 b.1 = true) g ->
  StronglySorted (fun a b => ltb a.1 b.1 = true) (add_to_group ltb k v g).
Proof.
  induction g as [|[k' v'] g IH]; intros Hs; simpl.
  { repeat constructor. }
  apply StronglySorted_inv in Hs as [Hs Hall].
  destruct (ltb k k') eqn:H1.
  { constructor; [by constructor |]. constructor; [done |].
    eapply Forall_impl; [exact Hall |]. intros [a b]; simpl. by apply ltb_trans. }
  destruct (ltb k' k) eqn:H2.
  { constructor; [by apply IH |].
    apply Forall_forall. intros [a b] Hin; simpl.
    assert (Ha : a ∈ map fst (add_to_group ltb k v g)).
    { apply list_elem_of_In, in_map_iff. exists (a, b). by rewrite <- list_elem_of_In. }
    apply add_to_group_keys in Ha as [->|Ha]; [done |].
    apply list_elem_of_In, in_map_iff in Ha as [[a' b'] [Heq Hin']]. simpl in Heq; subst a'.
    rewrite Forall_forall in Hall. by apply (Hall (a, b')), list_elem_of_In. }
  constructor; [done |]. done.
Qed.

Lemma groupby_fold_keys (rows g : list (K * Z)) (x : K) :
  x ∈ map fst (foldl (fun g kv => add_to_group ltb kv.1 kv.2 g) g rows)
  <-> x ∈ map fst g \/ x ∈ map fst rows.
Proof.
  revert g. induction rows as [|[k v] rows IH]; intros g; simpl.
  { rewrite elem_of_nil. tauto. }
  rewrite IH, add_to_group_keys, elem_of_cons. tauto.
Qed.

Lemma groupby_fold_total (rows g : list (K * Z)) (x : K) :
  group_total x (foldl (fun g kv => add_to_group ltb kv.1 kv.2 g) g rows)
  = (group_total x g + group_total x rows)%Z.
Proof.
  revert g. induction rows as [|[k v] rows IH]; intros g; simpl.
  { lia. }
  rewrite IH, add_to_group_total. destruct (decide (k = x)); lia.
Qed.

Lemma groupby_fold_sorted (rows g : list (K * Z)) :
  StronglySorted (fun a b => ltb a.1 b.1 = true) g ->
  StronglySorted (fun a b => ltb a.1 b.1 = true)
                 (foldl (fun g kv => add_to_group ltb kv.1 kv.2 g) g rows).
Proof.
  revert g. induction rows as [|[k v] rows IH]; intros g Hs; simpl; [done |].
  by apply IH, add_to_group_sorted.
Qed.

(** In a strictly sorted table the entry of a key holds its total. *)
Lemma sorted_entry_total (g : list (K * Z)) (k : K) (v : Z) :
  StronglySorted (fun a b => ltb a.1 b.1 = true) g ->
  (k, v) ∈ g -> group_total k g = v.
Proof.
  induction g as [|[k' v'] g IH]; intros Hs Hin.
  { by apply elem_of_nil in Hin. }
  apply StronglySorted_inv in Hs as [Hs Hall]. rewrite Forall_forall in Hall.
  assert (Hzero : forall x, ltb x k' = false -> (forall b, (x, b) ∈ g -> False)
                            -> group_total x g = 0%Z).
  { clear. intros x _. induction g as [|[a b] g IHg]; intros Hno; simpl; [done |].
    destruct (decide (a = x)) as [->|_].
    - exfalso. apply (Hno b). apply list_elem_of_here.
    - apply IHg. intros b' Hb'. apply (Hno b'). by apply list_elem_of_further. }
  apply elem_of_cons in Hin as [Heq|Hin]; simpl.
  - injection Heq as -> ->. rewrite decide_True by done.
    rewrite Hzero; [lia | apply ltb_irrefl |].
    intros b Hb. apply Hall in Hb. simpl in Hb.
    by rewrite ltb_irrefl in Hb.
  - destruct (decide (k' = k)) as [->|_]; [| by apply IH].
    apply Hall in Hin. simpl in Hin. by rewrite ltb_irrefl in Hin.
Qed.

Theorem groupby_sum_grouping (rows : list (K * Z)) :
  grouping ltb rows (groupby_sum ltb rows).
Proof.
  assert (Hs : StronglySorted (fun a b => ltb a.1 b.1 = true) (groupby_sum ltb rows)).
  { apply groupby_fold_sorted. constructor. }
  assert (Ht : forall x, group_total x (groupby_sum ltb rows) = group_total x rows).
  { intros x. unfold groupby_sum. by rewrite groupby_fold_total. }
  assert (Hk : forall x, x ∈ map fst (groupby_sum ltb rows) <-> x ∈ map fst rows).
  { intros x. unfold groupby_sum. rewrite groupby_fold_keys; simpl.
    rewrite elem_of_nil. tauto. }
  split; [done |]. intros k v. split.
  - intros Hin. split.
    + apply Hk. apply list_elem_of_In, in_map_iff. exists (k, v).
      by rewrite <- list_elem_of_In.
    + rewrite <- Ht. symmetry. by apply sorted_entry_total.
  - intros [Hin ->]. apply Hk in Hin.
    apply list_elem_of_In, in_map_iff in Hin as [[k' v'] [Heq Hin]].
    simpl in Heq; subst k'. apply list_elem_of_In in Hin.
    rewrite <- Ht. by rewrite (sorted_entry_total _ _ _ Hs Hin).
Qed.

Lemma groupby_sum_nil (rows : list (K * Z)) :
  groupby_sum ltb rows = [] <-> rows = [].
Proof.
  split; [| by intros ->].
  destruct rows as [|[k v] rows]; [done |]. intros Hg. exfalso.
  assert (Hk : k ∈ map fst (groupby_sum ltb ((k, v) :: rows))).
  { unfold groupby_sum. rewrite groupby_fold_keys. right. simpl. apply list_elem_of_here. }
  rewrite Hg in Hk. by apply elem_of_nil in Hk.
Qed.

End GroupByFacts.

(** ** The two orders used by the daily trend *)

Ltac bool_to_prop :=
  repeat match goal with
  | H : _ || _ = true |- _ => apply orb_true_iff in H
  | H : _ && _ = true |- _ => apply andb_true_iff in H
  | H : _ || _ = false |- _ => apply orb_false_iff in H
  | H : _ && _ = false |- _ => apply andb_false_iff in H
  | H : _ /\ _ |- _ => destruct H
  | H : _ \/ _ |- _ => destruct H
  | H : (_ <? _)%Z = true |- _ => apply Z.ltb_lt in H
  | H : (_ <? _)%Z = false |- _ => apply Z.ltb_ge in H
  | H : (_ =? _)%Z = true |- _ => apply Z.eqb_eq in H
  | H : (_ =? _)%Z = false |- _ => apply Z.eqb_neq in H
  | H : (_ <? _)%N = true |- _ => apply N.ltb_lt in H
  | H : (_ <? _)%N = false |- _ => apply N.ltb_ge in H
  | H : (_ =? _)%N = true |- _ => apply N.eqb_eq in H
  | H : (_ =? _)%N = false |- _ => apply N.eqb_neq in H
  end.

Lemma date_ltb_lt (a b : date) :
  date_ltb a b = true <->
  (year a < year b
   \/ year a = year b /\ (month a < month b \/ month a = month b /\ day a < day b))%Z.
Proof.
  unfold date_ltb.
  rewrite !orb_true_iff, !andb_true_iff, !orb_true_iff, !andb_true_iff,
          !Z.ltb_lt, !Z.eqb_eq.
  tauto.
Qed.

Lemma date_ltb_irrefl (a : date) : date_ltb a a = false.
Proof. apply not_true_is_false. rewrite date_ltb_lt. lia. Qed.

Lemma date_ltb_trans (a b c : date) :
  date_ltb a b = true -> date_ltb b c = true -> date_ltb a c = true.
Proof. rewrite !date_ltb_lt. lia. Qed.

Lemma date_ltb_total (a b : date) :
  date_ltb a b = false -> date_ltb b a = false -> a = b.
Proof.
  intros H1 H2. apply not_true_iff_false in H1, H2.
  rewrite date_ltb_lt in H1, H2.
  destruct a as [y m d], b as [y' m' d']; simpl in *.
  assert (y = y') by lia. assert (m = m') by lia. assert (d = d') by lia.
  by subst.
Qed.

Lemma str_ltb_irrefl (a : Py.str) : Py.ltb a a = false.
Proof.
  induction a as [|x a IH]; simpl; [done |].
  by rewrite N.ltb_irrefl, N.eqb_refl, IH.
Qed.

Lemma str_ltb_trans (a b c : Py.str) :
  Py.ltb a b = true -> Py.ltb b c = true -> Py.ltb a c = true.
Proof.
  revert b c. induction a as [|x a IH]; intros [|y b] [|z c]; simpl; try done.
  intros H1 H2. bool_to_prop; apply orb_true_iff.
  - left. apply N.ltb_lt. lia.
  - left. apply N.ltb_lt. lia.
  - left. apply N.ltb_lt. lia.
  - right. apply andb_true_iff. split; [apply N.eqb_eq; lia | by eapply IH].
Qed.

Lemma str_ltb_total (a b : Py.str) :
  Py.ltb a b = false -> Py.ltb b a = false -> a = b.
Proof.
  revert b. induction a as [|x a IH]; intros [|y b]; simpl; try done.
  intros H1 H2. bool_to_prop; try lia.
  assert (x = y) as -> by lia. f_equal. by apply IH.
Qed.

(** ** Today view and daily trend *)

Lemma positions_spec (mask : list bool) (n i : nat) :
  i ∈ positions n mask <-> exists k, i = n + k /\ mask !! k = Some true.
Proof.
  revert n. induction mask as [|b mask IH]; intros n; simpl.
  { rewrite elem_of_nil. split; [done |]. by intros [k [_ Hk]]. }
  assert (Hrest : (exists k, i = S n + k /\ mask !! k = Some true) <->
                  (exists k, i = n + S k /\ mask !! k = Some true)).
  { split; intros [k [-> Hk]]; exists k; split; [lia | done | lia | done]. }
  destruct b.
  - rewrite elem_of_cons, IH, Hrest. split.
    + intros [->|[k [-> Hk]]]; [exists 0; split; [lia | done] |].
      exists (S k). by split.
    + intros [[|k] [-> Hk]]; [left; lia |]. right. by exists k.
  - rewrite IH, Hrest. split.
    + intros [k [-> Hk]]. exists (S k). by split.
    + intros [[|k] [-> Hk]]; [done |]. by exists k.
Qed.

Lemma positions_all_false (mask : list bool) (n : nat) :
  Forall (fun b => b = false) mask -> positions n mask = [].
Proof.
  revert n. induction mask as [|b mask IH]; intros n Hall; simpl; [done |].
  apply Forall_cons in Hall as [-> Hall]. by apply IH.
Qed.

Lemma dated_rows_nil (ds : list stamp) (scores : list Z) :
  length scores = length ds ->
  dated_rows ds scores = [] <-> Forall (fun s => s = NaT) ds.
Proof.
  revert scores. induction ds as [|s ds IH]; intros [|z scores] Hlen;
    simpl in *; try done.
  destruct s as [d|].
  - split; [done |]. intros Hall. by apply Forall_cons in Hall as [? _].
  - rewrite IH by lia. rewrite Forall_cons. tauto.
Qed.

Lemma texted_rows_key (raw : list cell) (scores : list Z) (i : nat) (s : Py.str) :
  length scores = length raw ->
  raw !! i = Some (Str s) ->
  s ∈ map fst (texted_rows raw scores).
Proof.
  revert scores i. induction raw as [|c raw IH]; intros [|z scores] i Hlen Hi;
    simpl in *; try done.
  destruct i as [|i]; simpl in Hi.
  - injection Hi as ->. simpl. apply list_elem_of_here.
  - assert (Hs : s ∈ map fst (texted_rows raw scores)) by (apply (IH _ i); [lia | done]).
    destruct c; simpl; [by apply list_elem_of_further | done | done].
Qed.

Lemma numbered_rows_key (raw : list cell) (scores : list Z) (i : nat) (x : num) :
  length scores = length raw ->
  raw !! i = Some (Num x) ->
  num_val x ∈ map fst (numbered_rows raw scores).
Proof.
  revert scores i. induction raw as [|c raw IH]; intros [|z scores] i Hlen Hi;
    simpl in *; try done.
  destruct i as [|i]; simpl in Hi.
  - injection Hi as ->. simpl. apply list_elem_of_here.
  - assert (Hs : num_val x ∈ map fst (numbered_rows raw scores))
      by (apply (IH _ i); [lia | done]).
    destruct c; simpl; [done | by apply list_elem_of_further | done].
Qed.

Lemma texted_rows_nil (raw : list cell) (scores : list Z) :
  length scores = length raw ->
  texted_rows raw scores = [] <-> Forall (fun c => is_text c = false) raw.
Proof.
  revert scores. induction raw as [|c raw IH]; intros [|z scores] Hlen;
    simpl in *; try done.
  rewrite Forall_cons. destruct c as [s | x |]; cbn [is_text].
  - split; [done |]. by intros [? _].
  - rewrite IH by lia. tauto.
  - rewrite IH by lia. tauto.
Qed.

Lemma numbered_rows_nil (raw : list cell) (scores : list Z) :
  length scores = length raw ->
  numbered_rows raw scores = [] <-> Forall (fun c => is_number c = false) raw.
Proof.
  revert scores. induction raw as [|c raw IH]; intros [|z scores] Hlen;
    simpl in *; try done.
  rewrite Forall_cons. destruct c as [s | x |]; cbn [is_number].
  - rewrite IH by lia. tauto.
  - split; [done |]. by intros [? _].
  - rewrite IH by lia. tauto.
Qed.

Lemma existsb_false_Forall {A} (f : A -> bool) (l : list A) :
  existsb f l = false <-> Forall (fun x => f x = false) l.
Proof.
  induction l as [| x l IH]; cbn; [by split |].
  rewrite orb_false_iff, Forall_cons, IH. done.
Qed.

Lemma no_key_missing (raw : list cell) :
  existsb is_number raw = false ->
  Forall (fun c => is_text c = false) raw <-> Forall (fun c => c = NaN) raw.
Proof.
  rewrite existsb_false_Forall. induction 1 as [| c raw Hc _ IH]; [by split |].
  rewrite !Forall_cons, IH. destruct c; cbn in *; split; intros [? ?]; done.
Qed.

Lemma iso_to_datetime_length (col : list cell) (ds : list stamp) :
  iso_to_datetime col = Some ds -> length ds = length col.
Proof. intros H. symmetry. by eapply length_mapM. Qed.

(** Python's [<] on two numbers is a strict total order on their values. *)

Lemma Qc_ltb_lt (a b : Qc) : Qc_ltb a b = true <-> Qcanon.Qclt a b.
Proof.
  unfold Qc_ltb, Qcanon.Qclt, Qcanon.Qccompare. rewrite QArith_base.Qlt_alt.
  destruct (QArith_base.Qcompare _ _); split; congruence.
Qed.

Lemma Qc_ltb_irrefl (a : Qc) : Qc_ltb a a = false.
Proof.
  destruct (Qc_ltb a a) eqn:E; [| done]. apply Qc_ltb_lt in E.
  by apply QArith_base.Qlt_irrefl in E.
Qed.

Lemma Qc_ltb_trans (a b c : Qc) :
  Qc_ltb a b = true -> Qc_ltb b c = true -> Qc_ltb a c = true.
Proof. rewrite !Qc_ltb_lt. apply Qcanon.Qclt_trans. Qed.

Lemma Qc_ltb_total (a b : Qc) : Qc_ltb a b = false -> Qc_ltb b a = false -> a = b.
Proof.
  intros H1 H2. apply Qcanon.Qcle_antisym; apply Qcanon.Qcnot_lt_le; intros H;
    apply Qc_ltb_lt in H; congruence.
Qed.

Lemma xnum_ltb_irrefl (a : xnum) : xnum_ltb a a = false.
Proof. destruct a; cbn; [done | apply Qc_ltb_irrefl | done]. Qed.

Lemma xnum_ltb_trans (a b c : xnum) :
  xnum_ltb a b = true -> xnum_ltb b c = true -> xnum_ltb a c = true.
Proof. destruct a, b, c; cbn; try done. apply Qc_ltb_trans. Qed.

Lemma xnum_ltb_total (a b : xnum) :
  xnum_ltb a b = false -> xnum_ltb b a = false -> a = b.
Proof. destruct a, b; cbn; try done. intros H1 H2. f_equal. by apply Qc_ltb_total. Qed.

Section ViewFacts.

Variable to_datetime : list cell -> option (list stamp).

Lemma today_of_dates (today : date) (ds : list stamp) (i : nat) :
  i ∈ oggi_df today (Dates ds) <-> ds !! i = Some (Day today).
Proof.
  unfold oggi_df. rewrite positions_spec. simpl. split.
  - intros [k [-> Hk]]. change (map ?f ?l) with (f <$> l) in Hk.
    apply list_lookup_fmap_Some in Hk as [s [Hs Hk]].
    destruct s as [d|]; [| done].
    symmetry in Hs. apply bool_decide_eq_true in Hs. by subst d.
  - intros Hi. exists i. split; [done |]. change (map ?f ?l) with (f <$> l).
    apply list_lookup_fmap_Some. exists (Day today). split; [| done].
    symmetry. by apply bool_decide_eq_true.
Qed.

Lemma today_of_text (today : date) (col : list cell) :
  oggi_df today (Opaque_text col) = [].
Proof.
  unfold oggi_df. apply positions_all_false. simpl.
  apply Forall_forall. intros b Hb.
  apply list_elem_of_In, in_map_iff in Hb as [c [<- _]]. done.
Qed.

(** What line 198 gives over a raw [Data] column. *)
Lemma daily_raw (col : list cell) (scores : list Z) :
  length scores = length col ->
  (daily (Opaque_text col) scores = None
   <-> existsb is_text col = true /\ existsb is_number col = true)
  /\ (existsb is_number col = false ->
      exists g, daily (Opaque_text col) scores = Some (By_text g)
                /\ grouping Py.ltb (texted_rows col scores) g
                /\ (g = [] <-> Forall (fun c => c = NaN) col))
  /\ (existsb is_number col = true -> existsb is_text col = false ->
      exists g, daily (Opaque_text col) scores = Some (By_number g)
                /\ grouping xnum_ltb (numbered_rows col scores) g
                /\ g <> []).
Proof.
  intros Hlen. cbn [daily].
  destruct (existsb is_number col) eqn:Hnum; cbn [negb].
  - destruct (existsb is_text col) eqn:Htxt; cbn [negb].
    + split; [done |]. split; [done |]. done.
    + split; [split; [done | by intros [? _]] |]. split; [done |]. intros _ _.
      eexists. split; [reflexivity |]. split.
      { apply groupby_sum_grouping;
          [apply xnum_ltb_irrefl | apply xnum_ltb_trans | apply xnum_ltb_total]. }
      rewrite (groupby_sum_nil xnum_ltb xnum_ltb_total), (numbered_rows_nil _ _ Hlen).
      rewrite <- existsb_false_Forall. congruence.
  - split; [split; [done | by intros [_ ?]] |]. split; [| done]. intros _.
    eexists. split; [reflexivity |]. split.
    { apply groupby_sum_grouping;
        [apply str_ltb_irrefl | apply str_ltb_trans | apply str_ltb_total]. }
    rewrite (groupby_sum_nil Py.ltb str_ltb_total), (texted_rows_nil _ _ Hlen).
    by apply no_key_missing.
Qed.

(** C6, amended: the [try] covers the whole column.  When the column is
    accepted as a column of dates, the today view holds exactly the rows
    whose date is the current day.  When the call raises, because some cell
    is not a date, the raw column is kept and the today view is empty,
    whatever the other rows hold.  The rows then stay in the daily trend
    under their raw value, each text and each number of the column having
    its entry, unless the column holds both a text and a number: line 198
    then raises and no trend is drawn. *)
Theorem today_view (today : date) (df : DataFrame) (col : list cell) :
  series u8"Data" df = Some col ->
  match to_datetime col with
  | Some ds =>
    data_parsed to_datetime df = Some (Dates ds)
    /\ forall i, i ∈ oggi_df today (Dates ds) <-> ds !! i = Some (Day today)
  | None =>
    data_parsed to_datetime df = Some (Opaque_text col)
    /\ oggi_df today (Opaque_text col) = []
    /\ forall scores,
         length scores = length col ->
         (daily (Opaque_text col) scores = None
          <-> existsb is_text col = true /\ existsb is_number col = true)
         /\ (existsb is_number col = false ->
             exists g, daily (Opaque_text col) scores = Some (By_text g)
                       /\ forall i s, col !! i = Some (Str s) ->
                            (s, group_total s (texted_rows col scores)) ∈ g)
         /\ (existsb is_number col = true -> existsb is_text col = false ->
             exists g, daily (Opaque_text col) scores = Some (By_number g)
                       /\ forall i x, col !! i = Some (Num x) ->
                            (num_val x,
                             group_total (num_val x) (numbered_rows col scores)) ∈ g)
  end.
Proof.
  intros Hcol. unfold data_parsed. rewrite Hcol. simpl.
  destruct (to_datetime col) as [ds|] eqn:Hds.
  - split; [done |]. apply today_of_dates.
  - split; [done |]. split; [apply today_of_text |].
    intros scores Hlen. destruct (daily_raw col scores Hlen) as (Hnone & Htext & Hnum).
    split; [exact Hnone |]. split.
    + intros Hno. destruct (Htext Hno) as (g & Hg & [_ Hin] & _).
      exists g. split; [done |]. intros i s Hi. apply Hin.
      split; [| done]. by eapply texted_rows_key.
    + intros Hn Hno. destruct (Hnum Hn Hno) as (g & Hg & [_ Hin] & _).
      exists g. split; [done |]. intros i x Hi. apply Hin.
      split; [| done]. by eapply numbered_rows_key.
Qed.


End ViewFacts.

Example iso_date_examples :
  iso_date u8"2026-11-03" = Some (Day (mkDate 2026 11 3))
  /\ iso_date u8"2024-02-30" = None
  /\ iso_date u8"" = Some NaT
  /\ iso_date u8"boh" = None.
Proof. repeat split; reflexivity. Qed.

(** C6, as stated, fails: the first row carries the current day, the second
    is not a date, and the today view is empty. *)
Lemma today_view_needs_whole_column :
  ~ (forall i,
       (exists rows, oggi_view iso_to_datetime (mkDate 2026 11 3)
                       (normalize Py.latin_lower mixed_dates) = Some rows
                     /\ i ∈ rows)
       <-> (exists col c,
              series u8"Data" (normalize Py.latin_lower mixed_dates) = Some col
              /\ col !! i = Some c
              /\ iso_to_datetime [c] = Some [Day (mkDate 2026 11 3)])).
Proof.
  intros H. destruct (H 0) as [_ H0].
  destruct H0 as [rows [Hrows Hin]].
  { exists [Str u8"2026-11-03"; Str u8"boh"], (Str u8"2026-11-03").
    repeat split; vm_compute; reflexivity. }
  vm_compute in Hrows. injection Hrows as <-. by apply elem_of_nil in Hin.
Qed.

Lemma today_view_witness :
  series u8"Data" (normalize Py.latin_lower mixed_dates)
    = Some [Str u8"2026-11-03"; Str u8"boh"]
  /\ data_parsed iso_to_datetime (normalize Py.latin_lower mixed_dates)
     = Some (Opaque_text [Str u8"2026-11-03"; Str u8"boh"])
  /\ oggi_df (mkDate 2026 11 3) (Opaque_text [Str u8"2026-11-03"; Str u8"boh"]) = []
  /\ forall scores,
       length scores = 2 ->
       (daily (Opaque_text [Str u8"2026-11-03"; Str u8"boh"]) scores = None
        <-> existsb is_text [Str u8"2026-11-03"; Str u8"boh"] = true
            /\ existsb is_number [Str u8"2026-11-03"; Str u8"boh"] = true)
       /\ (existsb is_number [Str u8"2026-11-03"; Str u8"boh"] = false ->
           exists g,
             daily (Opaque_text [Str u8"2026-11-03"; Str u8"boh"]) scores = Some (By_text g)
             /\ forall i s, [Str u8"2026-11-03"; Str u8"boh"] !! i = Some (Str s) ->
                  (s, group_total s (texted_rows [Str u8"2026-11-03"; Str u8"boh"] scores))
                    ∈ g)
       /\ (existsb is_number [Str u8"2026-11-03"; Str u8"boh"] = true ->
           existsb is_text [Str u8"2026-11-03"; Str u8"boh"] = false ->
           exists g,
             daily (Opaque_text [Str u8"2026-11-03"; Str u8"boh"]) scores
               = Some (By_number g)
             /\ forall i x, [Str u8"2026-11-03"; Str u8"boh"] !! i = Some (Num x) ->
                  (num_val x,
                   group_total (num_val x)
                     (numbered_rows [Str u8"2026-11-03"; Str u8"boh"] scores)) ∈ g).
Proof.
  split; [vm_compute; reflexivity |].
  apply (today_view iso_to_datetime (mkDate 2026 11 3)
           (normalize Py.latin_lower mixed_dates)
           [Str u8"2026-11-03"; Str u8"boh"]).
  vm_compute; reflexivity.
Defined.

Example today_view_of_dates :
  oggi_view iso_to_datetime (mkDate 2026 11 3)
    (normalize Py.latin_lower
       (mkDF 3 [(u8"Data", [Str u8"2026-11-03"; Str u8"2026-11-02"; Str u8"2026-11-03"])]))
  = Some [0; 2].
Proof. vm_compute; reflexivity. Qed.


Example trend_of_text_dates :
  trend_view_of iso_to_datetime default_points (normalize Py.latin_lower text_dates)
  = Some (plotly_chart (By_text [(u8"boh", 10%Z)])).
Proof. vm_compute; reflexivity. Qed.

Example trend_of_mixed_dates :
  trend_view_of iso_to_datetime default_points (normalize Py.latin_lower mixed_dates)
  = Some (plotly_chart (By_text [(u8"2026-11-03", 10%Z); (u8"boh", 5%Z)])).
Proof. vm_compute; reflexivity. Qed.

(** A [Data] column that holds the number 5 and the text [boh]: the column
    is kept as it is, and line 198 raises. *)
Example trend_of_number_and_text :
  data_parsed iso_to_datetime (normalize Py.latin_lower number_dates)
    = Some (Opaque_text [Num five; Str u8"boh"])
  /\ oggi_view iso_to_datetime (mkDate 2026 11 3) (normalize Py.latin_lower number_dates)
     = Some []
  /\ trend_view_of iso_to_datetime default_points (normalize Py.latin_lower number_dates)
     = None.
Proof. repeat split; vm_compute; reflexivity. Qed.

Example trend_of_no_rows :
  trend_view_of iso_to_datetime default_points (normalize Py.latin_lower empty_frame)
  = Some (placeholder (st_info NO_TREND))
  /\ total_points [] = 0%Z /\ ore_segnate [] = 0.
Proof. repeat split; vm_compute; reflexivity. Qed.

(** ** Remote calls *)

Lemma last_such_le (P : nat -> bool) (n : nat) : last_such P n <= n.
Proof. induction n as [|n IH]; simpl; [done |]. destruct (P (S n)); lia. Qed.

Lemma used_rows_le (ws : worksheet) : used_rows ws <= row_count ws.
Proof. apply last_such_le. Qed.

Lemma used_cols_le (ws : worksheet) : used_cols ws <= col_count ws.
Proof. apply last_such_le. Qed.

Lemma length_header (ws : worksheet) : length (header ws) = used_cols ws.
Proof. unfold header. by rewrite length_map, length_seq. Qed.

Section SheetFacts.

Variable numericise : Py.str -> cell.
Variable column_values : list cell -> list cell.

(** The records are the rows of the used range below the header row, each
    zipped with the header, whose names are all different. *)
Lemma records_of_sheet (ws : worksheet) (recs : list dict) :
  get_all_records numericise ws = Some recs ->
  recs = map (fun r => zip (header ws)
                           (map numericise (map (cell_value ws r) (seq 1 (used_cols ws)))))
             (seq 2 (used_rows ws - 1))
  /\ (recs <> [] -> NoDup (header ws)).
Proof.
  unfold get_all_records, get_all_values.
  destruct (used_rows ws) as [|n]; simpl.
  { intros [= <-]. done. }
  fold (header ws). case_bool_decide as Hnd; [| done].
  intros [= <-]. rewrite Nat.sub_0_r, map_map. done.
Qed.

(** Record [i] is read from sheet row [i + 2], under the names of row 1. *)
Lemma record_of_row (ws : worksheet) (recs : list dict) (i : nat) (rec : dict) :
  get_all_records numericise ws = Some recs ->
  recs !! i = Some rec ->
  i + 2 <= row_count ws
  /\ rec = zip (header ws)
               (map numericise (map (cell_value ws (i + 2)) (seq 1 (used_cols ws)))).
Proof.
  intros Hrecs Hi. apply records_of_sheet in Hrecs as [-> _].
  pose proof (used_rows_le ws) as Hle.
  change (map ?f ?l) with (f <$> l) in Hi at 1.
  rewrite list_lookup_fmap in Hi.
  apply fmap_Some in Hi as [r [Hr ->]].
  apply lookup_seq in Hr as [-> Hlt].
  split; [lia |]. by replace (i + 2) with (2 + i) by lia.
Qed.

Lemma record_fields (ws : worksheet) (recs : list dict) :
  get_all_records numericise ws = Some recs ->
  Forall (fun rec => map fst rec = header ws) recs.
Proof.
  intros Hrecs. apply records_of_sheet in Hrecs as [-> _].
  apply Forall_forall. intros rec Hin.
  apply list_elem_of_In, in_map_iff in Hin as [r [<- _]].
  apply fst_zip. by rewrite !length_map, length_seq, length_header.
Qed.

End SheetFacts.

(** ** The table loaded from the sheet *)

Lemma filter_all {A} (P : A -> Prop) `{!forall x, Decision (P x)} (l : list A) :
  Forall P l -> filter P l = l.
Proof.
  induction 1 as [|x l Hx _ IH]; [done |].
  by rewrite filter_cons_True, IH.
Qed.

Lemma filter_none {A} (P : A -> Prop) `{!forall x, Decision (P x)} (l : list A) :
  Forall (fun x => ~ P x) l -> filter P l = [].
Proof.
  induction 1 as [|x l Hx _ IH]; [done |].
  by rewrite filter_cons_False.
Qed.

Lemma add_keys_fold (d : dict) (ks : list Py.str) :
  NoDup (map fst d) ->
  add_keys ks d = ks ++ filter (fun k => k ∉ ks) (map fst d).
Proof.
  unfold add_keys.
  revert ks. induction d as [|[k v] d IH]; intros ks Hnd; cbn [foldl map fst].
  { by rewrite filter_nil, app_nil_r. }
  apply NoDup_cons in Hnd as [Hk Hnd]. cbn [fst].
  case_bool_decide as Hin.
  - rewrite IH by done. by rewrite filter_cons_False by tauto.
  - rewrite IH by done. rewrite filter_cons_True by done.
    rewrite <- app_assoc. cbn [app]. do 2 f_equal.
    apply filter_iff_on. intros x Hx.
    rewrite not_elem_of_app, list_elem_of_singleton.
    split; [tauto |]. intros Hx'. split; [done |]. by intros ->.
Qed.

Lemma record_keys_uniform (keys : list Py.str) (data : list dict) :
  NoDup keys -> data <> [] ->
  Forall (fun rec => map fst rec = keys) data ->
  record_keys data = keys.
Proof.
  intros Hnd Hne Hall. unfold record_keys.
  destruct data as [|rec data]; [done |].
  apply Forall_cons in Hall as [Hrec Hall]. cbn [foldl].
  rewrite add_keys_fold by (by rewrite Hrec). rewrite Hrec. cbn [app].
  rewrite filter_all by (apply Forall_forall; intros; apply not_elem_of_nil).
  clear Hne Hrec rec. induction Hall as [|rec data Hrec _ IH]; [done |].
  cbn [foldl]. rewrite add_keys_fold by (by rewrite Hrec). rewrite Hrec.
  rewrite filter_none, app_nil_r; [done |].
  apply Forall_forall. intros x Hx Hno. by apply Hno.
Qed.

Lemma index_of_app_l (x : Py.str) (l1 l2 : list Py.str) (c : nat) :
  index_of x l1 = Some c -> index_of x (l1 ++ l2) = Some c.
Proof.
  revert c. induction l1 as [|y l1 IH]; intros c; simpl; [done |].
  destruct (Py.eqb y x); [done |].
  intros H. apply fmap_Some in H as [c' [H ->]]. by rewrite (IH c').
Qed.

Lemma index_of_lt (x : Py.str) (l : list Py.str) (c : nat) :
  index_of x l = Some c -> c < length l.
Proof.
  revert c. induction l as [|y l IH]; intros c; simpl; [done |].
  destruct (Py.eqb y x); [intros [= <-]; lia |].
  intros H. apply fmap_Some in H as [c' [H ->]]. apply IH in H. lia.
Qed.

Lemma df_columns_app (df : DataFrame) :
  exists rest, df_columns df = columns df ++ rest.
Proof.
  unfold df_columns.
  destruct (bool_decide (SCORE_COL ∈ columns df)).
  - destruct (bool_decide (PARSED_COL ∈ columns df)).
    + exists []. by rewrite app_nil_r.
    + by exists [PARSED_COL].
  - destruct (bool_decide (PARSED_COL ∈ columns df ++ [SCORE_COL])).
    + by exists [SCORE_COL].
    + exists [SCORE_COL; PARSED_COL]. by rewrite <- app_assoc.
Qed.

(** For the table loaded from a sheet and normalised, [Stato] is found where
    the sheet has its status column. *)
Lemma stato_index (lower : Py.str -> Py.str) (numericise : Py.str -> cell)
    (column_values : list cell -> list cell) (ws : worksheet)
    (recs : list dict) (c : nat) :
  get_all_records numericise ws = Some recs ->
  recs <> [] ->
  status_column lower ws = Some c ->
  index_of u8"Stato"
    (df_columns (normalize lower (frame_of_records column_values recs))) = Some c
  /\ c + 1 <= col_count ws.
Proof.
  intros Hrecs Hne Hc. unfold status_column in Hc.
  pose proof (records_of_sheet numericise ws recs Hrecs) as [_ Hnd]. specialize (Hnd Hne).
  pose proof (record_keys_uniform (header ws) recs Hnd Hne
                (record_fields numericise ws recs Hrecs)) as Hkeys.
  set (fr := frame_of_records column_values recs).
  assert (Hcols : columns fr = header ws).
  { unfold columns, fr, frame_of_records. cbn [df_data].
    rewrite map_map. cbn [fst]. by rewrite map_id. }
  assert (Hempty : empty fr = false).
  { unfold empty, fr, frame_of_records. cbn [df_len df_data]. rewrite Hkeys.
    apply orb_false_iff. split.
    - apply Nat.eqb_neq. by destruct recs.
    - apply bool_decide_eq_false. intros Hnil.
      apply map_eq_nil in Hnil. by rewrite Hnil in Hc. }
  split.
  - destruct (df_columns_app (normalize lower fr)) as [rest ->].
    unfold columns at 1. rewrite normalize_data. cbn [df_data].
    rewrite map_app, <- app_assoc. apply index_of_app_l.
    rewrite map_map. cbn [fst].
    change (map (fun x => new_label lower fr x.1) (df_data fr))
      with (map (fun x => new_label lower fr (fst x)) (df_data fr)).
    rewrite <- (map_map fst (new_label lower fr)).
    fold (columns fr). rewrite Hcols.
    unfold new_label. by rewrite Hempty.
  - apply index_of_lt in Hc. rewrite length_map, length_header in Hc.
    pose proof (used_cols_le ws). lia.
Qed.

Lemma request_served (c : api_call) (w : world) :
  served w = None ->
  request c w = (Py.Ok tt, set_log (log w ++ [c]) w).
Proof. intros H. unfold request. by rewrite H. Qed.

Lemma patch_first_found (cols : list Py.str) (row : dict) (v : Py.str)
    (recs : list dict) (r_idx i c : nat) (rec : dict) :
  list_find (fun rec => same_key rec row = true) recs = Some (i, rec) ->
  index_of u8"Stato" cols = Some c ->
  patch_first cols row v r_idx recs =
  (_ ← ws_update_cell (r_idx + i) (c + 1) v;
   show (st_success SAVED)).
Proof.
  intros Hfind Hc. revert r_idx i Hfind.
  induction recs as [|r recs IH]; intros r_idx i Hfind; [done |].
  simpl in Hfind. simpl.
  destruct (same_key r row) eqn:Hk.
  - rewrite decide_True in Hfind by done. injection Hfind as <- <-.
    rewrite Hc, Nat.add_0_r. reflexivity.
  - rewrite decide_False in Hfind by done.
    apply fmap_Some in Hfind as [[j rec0] [Hfind Heq]].
    injection Heq as -> ->.
    rewrite (IH (S r_idx) j Hfind). by rewrite Nat.add_succ_comm.
Qed.

Lemma patch_first_not_found (cols : list Py.str) (row : dict) (v : Py.str)
    (recs : list dict) (r_idx : nat) :
  list_find (fun rec => same_key rec row = true) recs = None ->
  patch_first cols row v r_idx recs =
  show (st_warning NOT_FOUND).
Proof.
  revert r_idx. induction recs as [|r recs IH]; intros r_idx Hfind; [done |].
  simpl in Hfind. simpl.
  destruct (same_key r row) eqn:Hk.
  - by rewrite decide_True in Hfind.
  - rewrite decide_False in Hfind by done.
    apply fmap_None in Hfind. by apply IH.
Qed.

Lemma run_bind {A B} (m : io A) (k : A -> io B) (w : world) :
  (m ≫= k) w =
  match m w with
  | (Py.Ok a, w') => k a w'
  | (Py.Raise e, w') => (Py.Raise e, w')
  end.
Proof. reflexivity. Qed.

Lemma open_sheet_served (w : world) :
  served w = None ->
  open_sheet w = (Py.Ok tt, set_log (log w ++ [Open_by_key; Sheet1]) w).
Proof.
  intros H. unfold open_sheet. rewrite run_bind, request_served by done.
  rewrite request_served by done. simpl. by rewrite <- app_assoc.
Qed.

Lemma get_all_records_served (w : world) (recs : list dict) :
  served w = None ->
  get_all_records (numericise (env w)) (first_sheet w) = Some recs ->
  ws_get_all_records w = (Py.Ok recs, set_log (log w ++ [Get_all_records]) w).
Proof.
  intros H Hrecs. unfold ws_get_all_records.
  rewrite run_bind, request_served by done.
  unfold reads. cbn [first_sheet set_log env]. by rewrite Hrecs.
Qed.

Lemma update_cell_in_grid (r c : nat) (v : Py.str) (ws : worksheet) :
  1 <= r <= row_count ws -> 1 <= c <= col_count ws ->
  update_cell r c v ws =
  Some (mkSheet (row_count ws) (col_count ws) (<[(r, c) := v]> (grid ws))).
Proof.
  intros [Hr1 Hr2] [Hc1 Hc2]. unfold update_cell.
  apply Nat.leb_le in Hr1, Hr2, Hc1, Hc2.
  by rewrite Hr1, Hr2, Hc1, Hc2.
Qed.

Lemma update_cell_served (r c : nat) (v : Py.str) (w : world) :
  served w = None ->
  1 <= r <= row_count (first_sheet w) ->
  1 <= c <= col_count (first_sheet w) ->
  ws_update_cell r c v w =
  (Py.Ok tt,
   set_sheet (mkSheet (row_count (first_sheet w)) (col_count (first_sheet w))
                      (<[(r, c) := v]> (grid (first_sheet w))))
     (set_log (log w ++ [Update_cell r c v]) w)).
Proof.
  intros H Hr Hc. unfold ws_update_cell.
  rewrite run_bind, request_served by done.
  rewrite run_bind. unfold reads. cbn [first_sheet set_log].
  by rewrite update_cell_in_grid.
Qed.

Section Save.

Variables (cols : list Py.str) (row : dict) (w : world) (f : list N)
          (recs : list dict).

Hypothesis Hfile : service_account_json w = Some f.
Hypothesis Haccepts : accepts (env w) f = true.
Hypothesis Hserved : served w = None.
Hypothesis Hrecs : get_all_records (numericise (env w)) (first_sheet w) = Some recs.

Lemma service_granted : get_gspread_service true w = (Py.Ok tt, w).
Proof. unfold get_gspread_service, reads. simpl. by rewrite Hfile, Haccepts. Qed.

Lemma salva_reads (new_state : Py.str) :
  salva FULL_RW true cols row new_state w =
  try_except
    (fun w => patch_first cols row new_state 2 recs
                (set_log (log w ++ [Open_by_key; Sheet1; Get_all_records]) w))
    (fun e => show (st_error (WRITE_ERROR ++ Py.str_of_exn e)))
    w.
Proof.
  unfold salva. rewrite run_bind. unfold reads at 1.
  rewrite Hfile.
  rewrite (bool_decide_eq_true_2 (FULL_RW = FULL_RW)) by done.
  rewrite (bool_decide_eq_true_2 (is_Some (Some f))) by (by eexists).
  cbn [andb].
  unfold try_except. rewrite run_bind, service_granted.
  rewrite run_bind, open_sheet_served by done.
  rewrite run_bind, (get_all_records_served _ recs) by done.
  cbn [log set_log]. by rewrite <- app_assoc.
Qed.

Lemma salva_found (new_state : Py.str) (i c : nat) (rec : dict) :
  list_find (fun rec => same_key rec row = true) recs = Some (i, rec) ->
  index_of u8"Stato" cols = Some c ->
  c + 1 <= col_count (first_sheet w) ->
  salva FULL_RW true cols row new_state w =
  (Py.Ok tt,
   set_screen (screen w ++ [st_success SAVED])
     (set_sheet (mkSheet (row_count (first_sheet w)) (col_count (first_sheet w))
                         (<[(i + 2, c + 1) := new_state]> (grid (first_sheet w))))
        (set_log (log w ++ [Open_by_key; Sheet1; Get_all_records;
                            Update_cell (i + 2) (c + 1) new_state]) w))).
Proof.
  intros Hfind Hc Hcol.
  pose proof Hfind as Hrec. apply list_find_Some in Hrec as [Hrec _].
  apply (record_of_row _ _ _ _ _ Hrecs) in Hrec as [Hrow _].
  rewrite salva_reads. unfold try_except.
  rewrite (patch_first_found _ _ _ _ 2 i c rec Hfind Hc).
  rewrite run_bind, update_cell_served; [| done | simpl; lia | simpl; lia].
  replace (2 + i) with (i + 2) by lia.
  unfold show, writes.
  cbn [screen log set_log set_sheet set_screen first_sheet service_account_json
       env].
  rewrite <- app_assoc. reflexivity.
Qed.

Lemma salva_not_found (new_state : Py.str) :
  list_find (fun rec => same_key rec row = true) recs = None ->
  salva FULL_RW true cols row new_state w =
  (Py.Ok tt,
   set_screen
     (screen w ++ [st_warning NOT_FOUND])
     (set_log (log w ++ [Open_by_key; Sheet1; Get_all_records]) w)).
Proof.
  intros Hfind. rewrite salva_reads. unfold try_except.
  by rewrite (patch_first_not_found _ _ _ _ 2 Hfind).
Qed.

End Save.
(** ** Writer *)

Lemma index_of_elem (x : Py.str) (l : list Py.str) :
  x ∈ l -> exists c, index_of x l = Some c.
Proof.
  induction l as [| y l IH]; [by intros ?%elem_of_nil |].
  intros Hin. cbn [index_of]. destruct (Py.eqb y x) eqn:Hy; [by eexists |].
  apply elem_of_cons in Hin as [-> | Hin].
  - apply eqb_neq in Hy. done.
  - destruct (IH Hin) as [c ->]. by eexists.
Qed.

(** [list(df.columns).index("Stato")] never raises: the normalised table
    has a [Stato] column. *)
Lemma stato_in_table (lower : Py.str -> Py.str) (df_raw : DataFrame) :
  exists c, index_of u8"Stato" (df_columns (normalize lower df_raw)) = Some c.
Proof.
  destruct (df_columns_app (normalize lower df_raw)) as [rest ->].
  destruct (index_of_elem u8"Stato" (columns (normalize lower df_raw))) as [c Hc].
  - unfold columns. rewrite normalize_data. cbn [df_data].
    rewrite map_app, !map_map. apply elem_of_app.
    destruct (decide (u8"Stato" ∈ map (fun x => new_label lower df_raw x.1)
                                      (df_data df_raw))) as [Hin | Hin]; [by left |].
    right. apply list_elem_of_In, in_map_iff. exists u8"Stato". split; [done |].
    apply list_elem_of_In, list_elem_of_filter. split.
    + unfold columns. by rewrite map_map.
    + apply list_elem_of_In. unfold expected_cols; simpl; tauto.
  - exists c. by apply index_of_app_l.
Qed.



(** What the handler leaves behind there: the success message, the marker
    in a cell right of the table, and a header row that [get_all_records]
    no longer accepts. *)
Example save_on_bare_sheet :
  let w' := (salva FULL_RW true (df_columns bare_frame) bare_row DONE bare_world).2 in
  df_columns bare_frame
    = [u8"Data"; u8"Ora"; u8"Giorno"; u8"Attività"; u8"Materia"; u8"Tipo"; u8"Stato";
       u8"Punteggio"; u8"Note"; u8"Punteggio_calcolato"; u8"Data_parsed"]
  /\ screen w' = [st_success SAVED]
  /\ log w' = [Open_by_key; Sheet1; Get_all_records; Update_cell 2 7 DONE]
  /\ cell_value (first_sheet w') 2 7 = DONE
  /\ header (first_sheet w') = [u8"Data"; u8"Ora"; []; []; []; []; []]
  /\ get_all_records Str (first_sheet w') = None.
Proof. vm_compute. repeat split; reflexivity. Qed.

(** C5: when no remote record has the key of the row, and the service
    answers, the handler shows the not-found warning, leaves the sheet as it
    is, and has made one pass: the sheet was opened and read once and no
    update was sent. *)
Theorem save_not_found (cols : list Py.str) (row : dict) (w : world)
    (f : list N) (new_state : Py.str) (recs : list dict) :
  service_account_json w = Some f ->
  accepts (env w) f = true ->
  served w = None ->
  get_all_records (numericise (env w)) (first_sheet w) = Some recs ->
  Forall (fun rec => same_key rec row = false) recs ->
  exists w',
    salva FULL_RW true cols row new_state w = (Py.Ok tt, w')
    /\ screen w' = screen w
                   ++ [st_warning NOT_FOUND]
    /\ first_sheet w' = first_sheet w
    /\ get_all_records (numericise (env w')) (first_sheet w') = Some recs
    /\ log w' = log w ++ [Open_by_key; Sheet1; Get_all_records].
Proof.
  intros Hfile Hacc Hserved Hrecs Hnone.
  eexists. split.
  { eapply salva_not_found; [done.. |].
    apply list_find_None. eapply Forall_impl; [exact Hnone |].
    intros rec Hrec. simpl. by rewrite Hrec. }
  done.
Qed.


Example sample_records :
  get_all_records Str sample_sheet = Some
  [[(u8"Data", Str u8"2026-11-02"); (u8"Ora", Str u8"08:00"); (u8"Stato", Str DONE)];
   [(u8"Data", Str u8"2026-11-03"); (u8"Ora", Str u8"08:00"); (u8"Stato", Str PARTIAL)];
   [(u8"Data", Str u8"2026-11-03"); (u8"Ora", Str u8"08:00"); (u8"Stato", Str MISSED)]].
Proof. vm_compute. reflexivity. Qed.

Example sample_frame_columns :
  df_columns sample_frame =
  [u8"Data"; u8"Ora"; u8"Stato"; u8"Giorno"; u8"Attività"; u8"Materia"; u8"Tipo";
   u8"Punteggio"; u8"Note"; u8"Punteggio_calcolato"; u8"Data_parsed"].
Proof. vm_compute. reflexivity. Qed.

Example sample_row_cells :
  sample_row =
  [(u8"Data", Str u8"2026-11-03"); (u8"Ora", Str u8"08:00"); (u8"Stato", Str PARTIAL);
   (u8"Giorno", Str []); (u8"Attività", Str []); (u8"Materia", Str []);
   (u8"Tipo", Str []); (u8"Punteggio", Str []); (u8"Note", Str [])].
Proof. vm_compute. reflexivity. Qed.


Lemma save_not_found_witness :
  exists w',
    salva FULL_RW true (df_columns sample_frame) absent_row DONE sample_world
      = (Py.Ok tt, w')
    /\ screen w' = [st_warning NOT_FOUND]
    /\ first_sheet w' = sample_sheet
    /\ get_all_records (numericise (env w')) (first_sheet w')
       = Some (default [] (get_all_records Str sample_sheet))
    /\ log w' = [Open_by_key; Sheet1; Get_all_records].
Proof.
  apply (save_not_found (df_columns sample_frame) absent_row sample_world sample_key DONE).
  - reflexivity.
  - reflexivity.
  - reflexivity.
  - vm_compute. reflexivity.
  - apply (bool_decide_unpack _). vm_compute. reflexivity.
Defined.


(** The card of the second record of the sample sheet, with the second
    option picked and with the selector untouched. *)
Example card_on_sample :
  log (card FULL_RW true (df_columns sample_frame) sample_row (Some 1) true sample_world).2
    = [Open_by_key; Sheet1; Get_all_records; Update_cell 3 3 DONE]
  /\ log (card FULL_RW true (df_columns sample_frame) sample_row None true sample_world).2
    = [Open_by_key; Sheet1; Get_all_records; Update_cell 3 3 []]
  /\ cell_value sample_sheet 3 3 = PARTIAL
  /\ cell_value
       (first_sheet
          (card FULL_RW true (df_columns sample_frame) sample_row None true sample_world).2)
       3 3 = [].
Proof. vm_compute. repeat split; reflexivity. Qed.

(** ** Loader *)



Example load_sample :
  (load FULL_RW true (Some sample_key) sample_world).1
  = Py.Ok (frame_of_records id (default [] (get_all_records Str sample_sheet))).
Proof. vm_compute. reflexivity. Qed.

Example load_without_library :
  screen (load FULL_RW false (Some sample_key) sample_world).2
  = [st_error u8"Errore autenticazione Google: gspread non installato o import fallito."].
Proof. vm_compute. reflexivity. Qed.

(** The second remote call fails: the loader reports that failure and stops
    calling. *)
Example load_with_dropped_connection :
  load FULL_RW true (Some sample_key)
       (mkWorld sample_env None (Some 1) sample_sheet [] [])
  = (Py.Ok empty_frame,
     mkWorld sample_env (Some sample_key) (Some 0) sample_sheet
       [Open_by_key; Sheet1]
       [st_error u8"Errore autenticazione Google: Connection aborted."]).
Proof. vm_compute. reflexivity. Qed.

(** ** Exporter *)

Section ExportFacts.

Variable lower : Py.str -> Py.str.

Lemma sheet_rows_lookup (df : DataFrame) (i : nat) :
  i < df_len df ->
  sheet_rows df !! i = Some (map (fun c => nth i c.2 NaN) (df_data df)).
Proof.
  intros Hi. unfold sheet_rows. change (map ?f ?l) with (f <$> l) at 1.
  rewrite list_lookup_fmap, lookup_seq_lt by done. done.
Qed.

(** C7, amended: the export holds one sheet, named [Sheet1], written from
    [df_raw] as it stands after normalisation and before the score is
    computed: a header row and one row per row of the input table, the
    input's columns first and in their order, followed by the canonical
    columns the normaliser added.  Every cell is written as the table holds
    it, so that a date keeps the text it has in the source; the date format
    [yyyy-mm-dd] is set on the writer. *)
Theorem export_snapshot (df_raw : DataFrame) :
  exists rows,
    export_xlsx (normalize lower df_raw) =
      mkBook u8"xlsxwriter" u8"yyyy-mm-dd"
        [(u8"Sheet1",
          map Str (map (new_label lower df_raw) (columns df_raw)
                   ++ filter (fun c => c ∉ map (new_label lower df_raw) (columns df_raw))
                             expected_cols)
          :: rows)]
    /\ length rows = df_len df_raw
    /\ forall i j c d,
         i < df_len df_raw -> df_data df_raw !! j = Some (c, d) ->
         rows !! i ≫= (fun r => r !! j) = Some (nth i d NaN).
Proof.
  exists (sheet_rows (normalize lower df_raw)).
  rewrite (normalize_data lower df_raw).
  set (kept := map (fun c => (new_label lower df_raw c.1, c.2)) (df_data df_raw)).
  set (added := map (fun c => (c, replicate (df_len df_raw) (Str [])))
                    (filter (fun c => c ∉ map (new_label lower df_raw) (columns df_raw))
                            expected_cols)).
  split; [| split].
  - unfold export_xlsx, to_excel. f_equal. f_equal. f_equal. f_equal.
    unfold columns at 1. cbn [df_data]. rewrite map_app. f_equal. f_equal.
    + unfold kept, columns. by rewrite !map_map.
    + unfold added. rewrite map_map. apply map_id.
  - unfold sheet_rows. cbn [df_len]. by rewrite length_map, length_seq.
  - intros i j c d Hi Hj.
    rewrite sheet_rows_lookup by done.
    cbn [mbind option_bind df_data]. change (map ?f ?l) with (f <$> l) at 1.
    rewrite list_lookup_fmap, lookup_app_l.
    + unfold kept. change (map ?f ?l) with (f <$> l).
      by rewrite list_lookup_fmap, Hj.
    + unfold kept. rewrite length_map. by eapply lookup_lt_Some.
Qed.

End ExportFacts.

Example export_two_columns :
  sheets (export_xlsx (normalize Py.latin_lower two_columns)) =
  [(u8"Sheet1",
    [map Str [u8"Data"; u8"Extra"; u8"Giorno"; u8"Ora"; u8"Attività"; u8"Materia";
              u8"Tipo"; u8"Stato"; u8"Punteggio"; u8"Note"];
     [Str u8"2024-01-01"; Str u8"x"; Str []; Str []; Str []; Str []; Str []; Str [];
      Str []; Str []]])].
Proof. vm_compute. reflexivity. Qed.

(** C7, as stated, fails: a date that the source writes day first is
    exported as that text, not as [yyyy-mm-dd]. *)
Lemma export_keeps_date_text :
  ~ (forall rows row c,
       sheets (export_xlsx (normalize Py.latin_lower day_first_dates))
         = [(u8"Sheet1", map Str (columns (normalize Py.latin_lower day_first_dates))
                         :: rows)] ->
       row ∈ rows -> row !! 0 = Some c ->
       exists d, iso_date (py_str c) = Some (Day d)).
Proof.
  intros H.
  destruct (H [[Str u8"03/11/2026"; Str DONE; Str []; Str []; Str []; Str [];
                Str []; Str []; Str []]]
              [Str u8"03/11/2026"; Str DONE; Str []; Str []; Str []; Str [];
               Str []; Str []; Str []]
              (Str u8"03/11/2026")) as [d Hd].
  - vm_compute. reflexivity.
  - apply list_elem_of_here.
  - reflexivity.
  - vm_compute in Hd. discriminate Hd.
Qed.

(** * Further properties *)

(** ** The unused scoring helper *)

(** X1.  [safe_score_from_state] (lines 45-52) and the lambda of line 127
    agree under the default points when Python's [None] is read as 0: the
    helper answers 10, 5 or 0 exactly where the lambda does, and [None]
    where the lambda gives 0 for a cell that holds no marker. *)
Theorem safe_score_agrees (s : cell) :
  punteggio_calcolato default_points s = default 0%Z (safe_score_from_state s)
  /\ (safe_score_from_state s = None <->
      Py.strip (py_str s) ∉ [DONE; PARTIAL; MISSED]).
Proof.
  assert (Hnan : Py.strip (py_str NaN) ∉ [DONE; PARTIAL; MISSED]).
  { vm_compute. intros H. repeat (apply elem_of_cons in H as [H | H]; [discriminate H |]).
    by apply elem_of_nil in H. }
  assert (Hnil : Py.strip (py_str (Str [])) ∉ [DONE; PARTIAL; MISSED]).
  { vm_compute. intros H. repeat (apply elem_of_cons in H as [H | H]; [discriminate H |]).
    by apply elem_of_nil in H. }
  assert (Hvalue : forall v : cell,
             isna v = false -> v <> Str [] ->
             punteggio_calcolato default_points v
               = default 0%Z (safe_score_from_state v)
             /\ (safe_score_from_state v = None <->
                 Py.strip (py_str v) ∉ [DONE; PARTIAL; MISSED])).
  { intros v Hna Hv. unfold punteggio_calcolato, safe_score_from_state.
    rewrite Hna. cbn [orb]. rewrite bool_decide_eq_false_2 by done.
    cbv zeta.
    set (t := Py.strip (py_str v)).
    destruct (Py.eqb t DONE) eqn:H1.
    { apply eqb_eq in H1. split; [reflexivity |].
      split; [discriminate |]. intros H. exfalso. apply H. rewrite H1. apply list_elem_of_here. }
    destruct (Py.eqb t PARTIAL) eqn:H2.
    { apply eqb_eq in H2. split; [reflexivity |].
      split; [discriminate |]. intros H. exfalso. apply H. rewrite H2.
      apply list_elem_of_further, list_elem_of_here. }
    destruct (Py.eqb t MISSED) eqn:H3.
    { apply eqb_eq in H3. split; [reflexivity |].
      split; [discriminate |]. intros H. exfalso. apply H. rewrite H3.
      do 2 apply list_elem_of_further. apply list_elem_of_here. }
    apply eqb_neq in H1, H2, H3.
    split; [reflexivity |]. split; [| done]. intros _ H.
    repeat (apply elem_of_cons in H as [H | H]; [done |]).
    by apply elem_of_nil in H. }
  destruct s as [[| c s] | x |].
  - split; [reflexivity | done].
  - by apply Hvalue.
  - by apply Hvalue.
  - split; [reflexivity | done].
Qed.

(** ** White space around a status *)

Lemma lstrip_spaces (a : Py.str) :
  forallb Py.isspace a = true <-> Py.lstrip a = [].
Proof.
  induction a as [| c a IH]; simpl; [done |].
  destruct (Py.isspace c); simpl; [exact IH |]. split; discriminate.
Qed.

Lemma lstrip_app_spaces (a s : Py.str) :
  forallb Py.isspace a = true -> Py.lstrip (a ++ s) = Py.lstrip s.
Proof.
  induction a as [| c a IH]; simpl; [done |].
  intros [Hc Ha]%andb_true_iff. rewrite Hc. by apply IH.
Qed.

Lemma lstrip_app_text (s b : Py.str) :
  Py.lstrip s <> [] -> Py.lstrip (s ++ b) = Py.lstrip s ++ b.
Proof.
  induction s as [| c s IH]; simpl; [done |].
  destruct (Py.isspace c); [exact IH | done].
Qed.

Lemma rstrip_app_spaces (s b : Py.str) :
  forallb Py.isspace b = true -> Py.rstrip (s ++ b) = Py.rstrip s.
Proof.
  intros Hb. unfold Py.rstrip. rewrite rev_app_distr, lstrip_app_spaces; [done |].
  rewrite forallb_forall in *. intros x Hx. apply Hb. by apply in_rev.
Qed.

Lemma strip_padding (a s b : Py.str) :
  forallb Py.isspace a = true -> forallb Py.isspace b = true ->
  Py.strip (a ++ s ++ b) = Py.strip s.
Proof.
  intros Ha Hb. unfold Py.strip. rewrite lstrip_app_spaces by done.
  destruct (decide (Py.lstrip s = [])) as [Hs | Hs].
  - rewrite Hs. apply lstrip_spaces in Hs.
    replace (Py.lstrip (s ++ b)) with (@nil N); [done |].
    symmetry. apply lstrip_spaces. rewrite forallb_app. by rewrite Hs, Hb.
  - rewrite lstrip_app_text by done. by apply rstrip_app_spaces.
Qed.

(** X2.  The lambda of line 127 and the helper of lines 45-52 both strip the
    status before comparing it: white space typed before or after a status
    changes neither the score of the row nor the helper's answer. *)
Theorem score_ignores_padding (p : points) (a s b : Py.str) :
  forallb Py.isspace a = true -> forallb Py.isspace b = true ->
  punteggio_calcolato p (Str (a ++ s ++ b)) = punteggio_calcolato p (Str s)
  /\ safe_score_from_state (Str (a ++ s ++ b)) = safe_score_from_state (Str s).
Proof.
  intros Ha Hb. split.
  - unfold punteggio_calcolato. cbn [py_str]. by rewrite strip_padding.
  - assert (Hstrip : Py.strip (a ++ s ++ b) = Py.strip s) by by apply strip_padding.
    unfold safe_score_from_state. cbn [isna orb py_str]. cbv zeta. rewrite Hstrip.
    destruct s as [| c s].
    + change (Py.strip []) with (@nil N).
      rewrite (bool_decide_eq_true_2 (Str [] = Str [])) by done.
      by destruct (bool_decide (Str (a ++ [] ++ b) = Str [])).
    + rewrite !bool_decide_eq_false_2; [done | by intros [=] |].
      intros [= H]. apply app_eq_nil in H as [_ H]. discriminate H.
Qed.

Lemma score_ignores_padding_witness :
  punteggio_calcolato default_points (Str (u8"  " ++ DONE ++ [0x0A]%N))
  = punteggio_calcolato default_points (Str DONE)
  /\ safe_score_from_state (Str (u8"  " ++ DONE ++ [0x0A]%N))
     = safe_score_from_state (Str DONE).
Proof.
  apply (score_ignores_padding default_points u8"  " DONE [0x0A]%N).
  - reflexivity.
  - reflexivity.
Defined.

(** ** Summary metrics (lines 136-139) *)

Lemma punteggio_range (p : points) (s : cell) :
  points_in_range p -> (0 <= punteggio_calcolato p s <= 100)%Z.
Proof.
  intros (H1 & H2 & H3). unfold punteggio_calcolato.
  repeat match goal with |- context [Py.eqb ?a ?b] => destruct (Py.eqb a b) end; lia.
Qed.

Lemma metrics_of_bounded (scores : list Z) :
  Forall (fun z => (0 <= z <= 100)%Z) scores ->
  (Z.of_nat (ore_segnate scores) <= total_points scores
   <= 100 * Z.of_nat (ore_segnate scores))%Z
  /\ ore_segnate scores <= length scores.
Proof.
  unfold ore_segnate, total_points.
  induction 1 as [| z scores Hz _ IH]; [simpl; lia |].
  rewrite filter_cons. cbn [foldr]. destruct (decide (0 < z)%Z); cbn [length]; lia.
Qed.

(** X3.  With the three point values inside the bounds of the sidebar
    inputs, every row scores between 0 and 100, so that the two metrics
    bound each other: "Ore segnate" is at most "Punti totali", which is at
    most a hundred times "Ore segnate"; the total is 0 exactly when no row
    is counted, and no more rows are counted than the table has. *)
Theorem summary_metrics_bounds (p : points) (df : DataFrame) (scores : list Z) :
  points_in_range p ->
  score_column p df = Some scores ->
  (Z.of_nat (ore_segnate scores) <= total_points scores
   <= 100 * Z.of_nat (ore_segnate scores))%Z
  /\ ore_segnate scores <= length scores
  /\ (total_points scores = 0%Z <-> ore_segnate scores = 0).
Proof.
  intros Hp Hs. unfold score_column in Hs.
  destruct (series u8"Stato" df) as [col |]; [| discriminate Hs].
  injection Hs as <-.
  destruct (metrics_of_bounded (map (punteggio_calcolato p) col)) as [Hb Hl].
  { apply Forall_forall. intros z Hz. apply list_elem_of_In, in_map_iff in Hz as (s & <- & _).
    by apply punteggio_range. }
  split; [exact Hb |]. split; [exact Hl |]. lia.
Qed.

Lemma summary_metrics_bounds_witness :
  (Z.of_nat (ore_segnate [10; 5]%Z) <= total_points [10; 5]%Z
   <= 100 * Z.of_nat (ore_segnate [10; 5]%Z))%Z
  /\ ore_segnate [10; 5]%Z <= length [10; 5]%Z
  /\ (total_points [10; 5]%Z = 0%Z <-> ore_segnate [10; 5]%Z = 0).
Proof.
  apply (summary_metrics_bounds default_points (normalize Py.latin_lower mixed_dates)).
  - unfold points_in_range; simpl; lia.
  - vm_compute; reflexivity.
Defined.

(** ** Normalisation, once more *)

Lemma canonical_of_expected (lc k : Py.str) :
  canonical_of lc = Some k -> k ∈ expected_cols.
Proof.
  unfold canonical_of.
  repeat match goal with
  | |- context [Py.contains ?a lc] => destruct (Py.contains a lc)
  end; intros [= <-]; apply list_elem_of_In; unfold expected_cols; simpl; tauto.
Qed.

Section NormalizeAgain.

Variable lower : Py.str -> Py.str.

Lemma normalize_columns (df_raw : DataFrame) :
  columns (normalize lower df_raw) =
  map (new_label lower df_raw) (columns df_raw)
  ++ filter (fun c => c ∉ map (new_label lower df_raw) (columns df_raw)) expected_cols.
Proof.
  rewrite normalize_data. unfold columns. cbn [df_data].
  by rewrite map_app, !map_map, map_id.
Qed.

Lemma normalize_has_expected (df_raw : DataFrame) (c : Py.str) :
  c ∈ expected_cols -> c ∈ columns (normalize lower df_raw).
Proof.
  intros Hc. rewrite normalize_columns. apply elem_of_app.
  destruct (decide (c ∈ map (new_label lower df_raw) (columns df_raw))) as [Hin | Hin];
    [by left |].
  right. by apply list_elem_of_filter.
Qed.

Lemma normalize_len (df_raw : DataFrame) :
  df_len (normalize lower df_raw) = df_len df_raw.
Proof. by rewrite normalize_data. Qed.

Lemma normalize_wf (df_raw : DataFrame) :
  well_formed (normalize lower df_raw) <-> well_formed df_raw.
Proof.
  unfold well_formed. rewrite normalize_data. cbn [df_len df_data].
  rewrite Forall_app, !Forall_forall. split.
  - intros [H _] c Hc. apply (H (new_label lower df_raw c.1, c.2)).
    apply list_elem_of_In, in_map_iff. exists c. split; [done |]. by apply list_elem_of_In.
  - intros H. split.
    + intros c Hc. apply list_elem_of_In, in_map_iff in Hc as (x & <- & Hx).
      apply list_elem_of_In in Hx. cbn. by apply H.
    + intros c Hc. apply list_elem_of_In, in_map_iff in Hc as (x & <- & _).
      cbn. apply length_replicate.
Qed.

(** X4.  Normalisation keeps a table rectangular and never makes it so: the
    result has the row count of the source, and every column of the result
    holds one cell per row exactly when every source column does; the
    appended columns are filled to the row count, whatever the source
    columns hold. *)
Theorem normalize_well_formed (df_raw : DataFrame) :
  df_len (normalize lower df_raw) = df_len df_raw
  /\ (well_formed (normalize lower df_raw) <-> well_formed df_raw)
  /\ forall c s,
       c ∉ map (new_label lower df_raw) (columns df_raw) ->
       (c, s) ∈ df_data (normalize lower df_raw) ->
       s = replicate (df_len df_raw) (Str []).
Proof.
  split; [apply normalize_len |]. split; [apply normalize_wf |].
  intros c s Hc. rewrite normalize_data. cbn [df_data].
  intros [Hin | Hin]%elem_of_app.
  - exfalso. apply Hc.
    apply list_elem_of_In, in_map_iff in Hin as (x & [= <- <-] & Hx).
    apply list_elem_of_In, in_map_iff. exists x.1. split; [done |].
    unfold columns. by apply in_map.
  - by apply list_elem_of_In, in_map_iff in Hin as (x & [= <- <-] & _).
Qed.

Lemma normalize_fixed (out : DataFrame) :
  (forall l, l ∈ columns out -> new_label lower out l = l) ->
  (forall c, c ∈ expected_cols -> c ∈ columns out) ->
  normalize lower out = out.
Proof.
  intros Hfix Hall. rewrite normalize_data.
  assert (Hmap : map (new_label lower out) (columns out) = columns out).
  { rewrite <- (map_id (columns out)) at 2. apply map_ext_in.
    intros l Hl. by apply Hfix, list_elem_of_In. }
  rewrite Hmap, filter_none.
  - destruct out as [n data]. cbn [df_len df_data map]. rewrite app_nil_r. f_equal.
    rewrite <- (map_id data) at 2. apply map_ext_in.
    intros [l d] Hl. cbn. f_equal. apply Hfix.
    apply list_elem_of_In, in_map_iff. by exists (l, d).
  - apply Forall_forall. intros c Hc Hn. by apply Hn, Hall.
Qed.

Lemma new_label_nonempty (df : DataFrame) (l : Py.str) :
  df_len df <> 0 -> df_data df <> [] ->
  new_label lower df l = default l (canonical_of (lower (Py.strip l))).
Proof.
  unfold new_label, empty. destruct df as [n data]. cbn [df_len df_data].
  intros Hn Hd. destruct n as [| n]; [done |]. cbn [Nat.eqb orb].
  by rewrite bool_decide_eq_false_2.
Qed.

Lemma new_label_cases (df : DataFrame) (l : Py.str) :
  new_label lower df l = l \/ (df_len df <> 0 /\ df_data df <> []).
Proof.
  unfold new_label, empty. destruct df as [n data]. cbn [df_len df_data].
  destruct n as [| n]; [by left |]. cbn [Nat.eqb orb].
  destruct data as [| x data]; [by left |]. right. done.
Qed.

(** X5.  Normalising twice is normalising once, provided the lowering
    function maps each canonical name to a text in which the [if]/[elif]
    chain finds that name's own fragment first (as [str.lower] does). *)
Theorem normalize_idempotent (df_raw : DataFrame) :
  (forall k, k ∈ expected_cols -> canonical_of (lower (Py.strip k)) = Some k) ->
  normalize lower (normalize lower df_raw) = normalize lower df_raw.
Proof.
  intros Hcanon. apply normalize_fixed; [| apply normalize_has_expected].
  assert (Hexp : forall l, l ∈ expected_cols ->
                           default l (canonical_of (lower (Py.strip l))) = l).
  { intros l He. by rewrite (Hcanon l He). }
  intros l Hl.
  destruct (new_label_cases (normalize lower df_raw) l) as [Hsame | [Hlen Hdata]];
    [exact Hsame |].
  rewrite (new_label_nonempty _ l Hlen Hdata). rewrite normalize_len in Hlen.
  rewrite normalize_columns in Hl. apply elem_of_app in Hl as [Hl | Hl].
  - apply list_elem_of_In, in_map_iff in Hl as (c & Hlc & Hc).
    assert (Hne : df_data df_raw <> []).
    { intros Hnil. unfold columns in Hc. rewrite Hnil in Hc. destruct Hc. }
    rewrite (new_label_nonempty _ c Hlen Hne) in Hlc.
    destruct (canonical_of (lower (Py.strip c))) as [k |] eqn:Hk;
      cbn [default] in Hlc; subst l.
    + apply Hexp. by eapply canonical_of_expected.
    + by rewrite Hk.
  - apply list_elem_of_filter in Hl as [_ Hl]. by apply Hexp.
Qed.

End NormalizeAgain.

Lemma normalize_idempotent_witness :
  normalize Py.latin_lower (normalize Py.latin_lower two_date_columns)
  = normalize Py.latin_lower two_date_columns.
Proof.
  apply (normalize_idempotent Py.latin_lower two_date_columns).
  intros k Hk. unfold expected_cols in Hk.
  repeat (apply elem_of_cons in Hk as [-> | Hk]; [vm_compute; reflexivity |]).
  by apply elem_of_nil in Hk.
Defined.

(** ** When the script gets past the score and date columns *)

Lemma filter_key_unique (data : list (Py.str * list cell)) (c : Py.str) :
  NoDup (map fst data) -> c ∈ map fst data ->
  exists s, filter (fun x => x.1 = c) data = [(c, s)] /\ (c, s) ∈ data.
Proof.
  induction data as [| [k v] data IH]; cbn [map fst].
  - intros _ H. by apply elem_of_nil in H.
  - intros [Hk Hnd]%NoDup_cons Hc. rewrite filter_cons. cbn [fst].
    destruct (decide (k = c)) as [-> | Hne].
    + exists v. split; [| apply list_elem_of_here]. f_equal.
      apply filter_none, Forall_forall. intros x Hx Hxc. apply Hk.
      apply list_elem_of_In, in_map_iff. exists x. split; [done |]. by apply list_elem_of_In.
    + apply elem_of_cons in Hc as [-> | Hc]; [done |].
      destruct (IH Hnd Hc) as (s & Hs & Hin). exists s. split; [done |].
      by apply list_elem_of_further.
Qed.

Lemma series_unique (df : DataFrame) (c : Py.str) :
  NoDup (columns df) -> c ∈ columns df ->
  exists s, series c df = Some s /\ (c, s) ∈ df_data df.
Proof.
  intros Hnd Hc. destruct (filter_key_unique _ _ Hnd Hc) as (s & Hs & Hin).
  exists s. split; [| done]. unfold series, labelled. by rewrite Hs.
Qed.

Lemma series_length (df : DataFrame) (c : Py.str) (s : list cell) :
  well_formed df -> series c df = Some s -> length s = df_len df.
Proof.
  unfold series, labelled, well_formed. intros Hwf Hs.
  destruct (filter (fun x => x.1 = c) (df_data df)) as [| x [| y r]] eqn:Hf;
    try discriminate Hs.
  injection Hs as <-.
  assert (Hx : x ∈ filter (fun x => x.1 = c) (df_data df)) by (rewrite Hf; apply list_elem_of_here).
  apply list_elem_of_filter in Hx as [_ Hx].
  rewrite Forall_forall in Hwf. by apply Hwf.
Qed.

Section NoStop.

Variable lower : Py.str -> Py.str.
Variable to_datetime : list cell -> option (list stamp).

Lemma normalize_nodup (df_raw : DataFrame) :
  NoDup (map (new_label lower df_raw) (columns df_raw)) ->
  NoDup (columns (normalize lower df_raw)).
Proof.
  intros Hnd. rewrite normalize_columns. apply NoDup_app. split; [done |]. split.
  - intros x Hx [Hn _]%list_elem_of_filter. done.
  - apply NoDup_filter, expected_cols_nodup.
Qed.

Lemma normalize_series (df_raw : DataFrame) (c : Py.str) :
  NoDup (map (new_label lower df_raw) (columns df_raw)) ->
  well_formed df_raw ->
  c ∈ expected_cols ->
  exists s, series c (normalize lower df_raw) = Some s /\ length s = df_len df_raw.
Proof.
  intros Hnd Hwf Hc.
  destruct (series_unique (normalize lower df_raw) c) as (s & Hs & _).
  { by apply normalize_nodup. }
  { by apply normalize_has_expected. }
  exists s. split; [done |].
  rewrite (series_length (normalize lower df_raw) c s); [apply normalize_len | | done].
  by apply normalize_wf.
Qed.

Lemma stato_expected : u8"Stato" ∈ expected_cols.
Proof. apply list_elem_of_In. unfold expected_cols; simpl; tauto. Qed.

Lemma data_expected : u8"Data" ∈ expected_cols.
Proof. apply list_elem_of_In. unfold expected_cols; simpl; tauto. Qed.

(** X6.  When no two source columns end up under the same label, every
    label of the normalised table is carried by one column, and the script
    gets past lines 127 and 147-151: the score column is defined, with one
    score per row of a rectangular table, and so are [Data_parsed] and the
    today view.  The script then stops on line 198, before the trend panel,
    exactly when the [Data] column was kept as it is and holds both a text
    and a number. *)
Theorem unique_labels_views (p : points) (today : date) (df_raw : DataFrame) :
  NoDup (map (new_label lower df_raw) (columns df_raw)) ->
  well_formed df_raw ->
  NoDup (columns (normalize lower df_raw))
  /\ (exists scores,
        score_column p (normalize lower df_raw) = Some scores
        /\ length scores = df_len df_raw)
  /\ (exists rows, oggi_view to_datetime today (normalize lower df_raw) = Some rows)
  /\ (exists col,
        series u8"Data" (normalize lower df_raw) = Some col
        /\ length col = df_len df_raw
        /\ (trend_view_of to_datetime p (normalize lower df_raw) = None
            <-> to_datetime col = None
                /\ existsb is_text col = true /\ existsb is_number col = true)).
Proof.
  intros Hnd Hwf.
  destruct (normalize_series df_raw u8"Stato" Hnd Hwf stato_expected) as (st & Hst & Hlen).
  destruct (normalize_series df_raw u8"Data" Hnd Hwf data_expected) as (da & Hda & Hlda).
  split; [by apply normalize_nodup |].
  unfold trend_view_of, oggi_view, data_parsed, score_column.
  rewrite Hst, Hda. cbn [mbind option_bind].
  split; [eexists; split; [done | by rewrite length_map] |].
  split; [by eexists |].
  exists da. split; [done |]. split; [done |].
  destruct (to_datetime da) as [ds |] eqn:Hds.
  - unfold trend_panel. cbn [daily mbind option_bind]. split; [done | by intros [? _]].
  - destruct (daily_raw da (map (punteggio_calcolato p) st)) as (Hnone & _).
    { rewrite length_map. congruence. }
    unfold trend_panel.
    destruct (daily (Opaque_text da) (map (punteggio_calcolato p) st)) as [t |] eqn:Hd;
      cbn [mbind option_bind].
    + split; [done |]. intros [_ Hmix]. apply Hnone in Hmix. discriminate Hmix.
    + split; [| done]. intros _. split; [done |]. by apply Hnone.
Qed.

End NoStop.

Lemma unique_labels_views_witness :
  NoDup (columns (normalize Py.latin_lower number_dates))
  /\ (exists scores,
        score_column default_points (normalize Py.latin_lower number_dates) = Some scores
        /\ length scores = df_len number_dates)
  /\ (exists rows, oggi_view iso_to_datetime (mkDate 2026 11 3)
                     (normalize Py.latin_lower number_dates) = Some rows)
  /\ (exists col,
        series u8"Data" (normalize Py.latin_lower number_dates) = Some col
        /\ length col = df_len number_dates
        /\ (trend_view_of iso_to_datetime default_points
              (normalize Py.latin_lower number_dates) = None
            <-> iso_to_datetime col = None
                /\ existsb is_text col = true /\ existsb is_number col = true)).
Proof.
  apply (unique_labels_views Py.latin_lower iso_to_datetime default_points
           (mkDate 2026 11 3) number_dates).
  - apply (bool_decide_unpack _). vm_compute. exact I.
  - unfold well_formed. cbn. repeat constructor.
Defined.

(** ** A table without rows *)

Section NoRows.

Variable lower : Py.str -> Py.str.
Variable to_datetime : list cell -> option (list stamp).

Lemma new_label_empty (df_raw : DataFrame) :
  empty df_raw = true ->
  map (new_label lower df_raw) (columns df_raw) = columns df_raw.
Proof.
  intros He. rewrite <- (map_id (columns df_raw)) at 2. apply map_ext.
  intros c. unfold new_label. by rewrite He.
Qed.

(** X7.  A table that has headers and no row (what a loader failure, an
    empty sheet or a header-only export gives) keeps its headers under
    their own names, whatever fragments they hold, and gets the missing
    canonical columns; provided its labels are all different, the page then
    shows no score, both metrics at 0, no card for today and the
    placeholder in place of the trend chart. *)
Theorem no_rows_page (p : points) (today : date) (df_raw : DataFrame) :
  df_len df_raw = 0 ->
  well_formed df_raw ->
  NoDup (columns df_raw) ->
  (forall ds, to_datetime [] = Some ds -> ds = []) ->
  columns (normalize lower df_raw)
    = columns df_raw ++ filter (fun c => c ∉ columns df_raw) expected_cols
  /\ score_column p (normalize lower df_raw) = Some []
  /\ total_points [] = 0%Z /\ ore_segnate [] = 0
  /\ oggi_view to_datetime today (normalize lower df_raw) = Some []
  /\ trend_view_of to_datetime p (normalize lower df_raw)
     = Some (placeholder (st_info NO_TREND)).
Proof.
  intros Hlen Hwf Hnd Hdt.
  assert (He : empty df_raw = true) by (unfold empty; by rewrite Hlen).
  pose proof (new_label_empty df_raw He) as Hlab.
  assert (Hnd' : NoDup (map (new_label lower df_raw) (columns df_raw))) by by rewrite Hlab.
  destruct (normalize_series lower df_raw u8"Stato" Hnd' Hwf stato_expected)
    as (st & Hst & Hlst).
  destruct (normalize_series lower df_raw u8"Data" Hnd' Hwf data_expected)
    as (da & Hda & Hlda).
  rewrite Hlen in Hlst, Hlda.
  apply nil_length_inv in Hlst, Hlda. subst st da.
  split; [by rewrite normalize_columns, Hlab |].
  unfold trend_view_of, oggi_view, data_parsed, score_column.
  rewrite Hst, Hda. cbn [mbind option_bind map].
  split; [done |]. split; [done |]. split; [done |].
  destruct (to_datetime []) as [ds |] eqn:Hds.
  - rewrite (Hdt ds eq_refl). split; reflexivity.
  - split; reflexivity.
Qed.

End NoRows.

Lemma no_rows_page_witness :
  columns (normalize Py.latin_lower headers_only)
    = columns headers_only
      ++ filter (fun c => c ∉ columns headers_only)
                expected_cols
  /\ score_column default_points
       (normalize Py.latin_lower headers_only) = Some []
  /\ total_points [] = 0%Z /\ ore_segnate [] = 0
  /\ oggi_view iso_to_datetime (mkDate 2026 11 3)
       (normalize Py.latin_lower headers_only) = Some []
  /\ trend_view_of iso_to_datetime default_points
       (normalize Py.latin_lower headers_only)
     = Some (placeholder (st_info NO_TREND)).
Proof.
  apply (no_rows_page Py.latin_lower iso_to_datetime default_points (mkDate 2026 11 3)
           headers_only).
  - reflexivity.
  - unfold well_formed. cbn. repeat constructor.
  - apply (bool_decide_unpack _). vm_compute. exact I.
  - intros ds H. vm_compute in H. by injection H as <-.
Defined.

(** ** Missions panel *)

Section MissionFacts.

Variable lower : Py.str -> Py.str.

(** X8.  The missions panel reads the table after the renaming step.  As
    long as no canonical name itself passes the panel's test, a column is
    listed exactly when it is a source column that passes the test and kept
    its own name: a header that also holds one of the nine keyword
    fragments has been renamed by then and is left out, and none of the
    nine canonical columns is ever listed. *)
Theorem mission_cols_unrenamed (df_raw : DataFrame) (c : Py.str) :
  (forall k, k ∈ expected_cols -> is_mission lower k = false) ->
  c ∈ possible_mission_cols lower (normalize lower df_raw)
  <-> c ∈ columns df_raw /\ is_mission lower c = true
      /\ new_label lower df_raw c = c /\ c ∉ expected_cols.
Proof.
  intros Hcanon. unfold possible_mission_cols.
  rewrite list_elem_of_filter, normalize_columns, elem_of_app. split.
  - intros [Hm [Hin | Hin]].
    + apply list_elem_of_In, in_map_iff in Hin as (c0 & Hc0 & Hin).
      apply list_elem_of_In in Hin.
      assert (Hne : c ∉ expected_cols).
      { intros He. rewrite (Hcanon c He) in Hm. discriminate Hm. }
      assert (Hsame : c0 = c).
      { revert Hc0. unfold new_label. destruct (empty df_raw); [done |].
        destruct (canonical_of (lower (Py.strip c0))) as [k |] eqn:Hk; cbn [default];
          [| done].
        intros <-. exfalso. apply Hne. by eapply canonical_of_expected. }
      subst c0. done.
    + apply list_elem_of_filter in Hin as [_ He].
      rewrite (Hcanon c He) in Hm. discriminate Hm.
  - intros (Hin & Hm & Hlab & _). split; [done |]. left.
    apply list_elem_of_In, in_map_iff. exists c. split; [done |]. by apply list_elem_of_In.
Qed.

End MissionFacts.

Lemma mission_cols_unrenamed_witness :
  u8"Descrizione" ∈ possible_mission_cols Py.latin_lower
                      (normalize Py.latin_lower missions_table)
  <-> u8"Descrizione" ∈ columns missions_table
      /\ is_mission Py.latin_lower u8"Descrizione" = true
      /\ new_label Py.latin_lower missions_table u8"Descrizione" = u8"Descrizione"
      /\ u8"Descrizione" ∉ expected_cols.
Proof.
  apply (mission_cols_unrenamed Py.latin_lower missions_table u8"Descrizione").
  intros k Hk. unfold expected_cols in Hk.
  repeat (apply elem_of_cons in Hk as [-> | Hk]; [vm_compute; reflexivity |]).
  by apply elem_of_nil in Hk.
Defined.

(** The two headers named in the comment on line 189: on a table with a row
    the first one holds the fragment [tipo], is renamed [Tipo] and is not
    listed; only the second one is shown. *)
Example missions_of_template :
  columns (normalize Py.latin_lower missions_table)
  = [u8"Tipo"; u8"Descrizione"; u8"Data"; u8"Giorno"; u8"Ora"; u8"Attività";
     u8"Materia"; u8"Stato"; u8"Punteggio"; u8"Note"]
  /\ possible_mission_cols Py.latin_lower (normalize Py.latin_lower missions_table)
     = [u8"Descrizione"]
  /\ missions_panel Py.latin_lower (normalize Py.latin_lower missions_table)
     = st_dataframe (mkDF 1 [(u8"Descrizione", [Str u8"ripasso"])]).
Proof. vm_compute. done. Qed.

(** ** Today view and trend, together *)

Lemma positions_bounds (mask : list bool) (n : nat) :
  StronglySorted lt (positions n mask)
  /\ Forall (fun i => n <= i < n + length mask) (positions n mask).
Proof.
  revert n. induction mask as [| b mask IH]; intros n; cbn [positions length].
  { split; constructor. }
  destruct (IH (S n)) as [Hs Hb].
  assert (Hb' : Forall (fun i => n <= i < n + S (length mask)) (positions (S n) mask)).
  { eapply Forall_impl; [exact Hb |]. cbn. intros i Hi. lia. }
  destruct b; [| done]. split.
  - constructor; [done |]. eapply Forall_impl; [exact Hb |]. cbn. intros i Hi. lia.
  - constructor; [lia | done].
Qed.

Lemma length_is_today (today : date) (pc : parsed_column) :
  length (is_today today pc) =
  match pc with Dates ds => length ds | Opaque_text raw => length raw end.
Proof. destruct pc; cbn; apply length_map. Qed.

(** X9.  The rows of the today view are listed in table order, each once,
    and every one of them is a row of the table whose parsed date is
    today; over a [Data] column that was kept as text the view has no
    row. *)
Theorem oggi_rows_ordered (today : date) (pc : parsed_column) :
  StronglySorted lt (oggi_df today pc)
  /\ NoDup (oggi_df today pc)
  /\ forall i, i ∈ oggi_df today pc ->
       exists ds, pc = Dates ds /\ i < length ds /\ ds !! i = Some (Day today).
Proof.
  unfold oggi_df. destruct (positions_bounds (is_today today pc) 0) as [Hs Hb].
  split; [done |]. split.
  - clear Hb. induction Hs as [| i l _ IH Hi]; constructor; [| done].
    intros Hin. rewrite Forall_forall in Hi. specialize (Hi _ Hin). lia.
  - intros i Hi. apply positions_spec in Hi as (k & -> & Hk). cbn [Nat.add].
    destruct pc as [ds | raw]; cbn [is_today] in Hk.
    + exists ds. split; [done |].
      apply list_lookup_fmap_Some in Hk as (s & Ht & Hs').
      destruct s as [d |]; [| discriminate Ht].
      symmetry in Ht. apply bool_decide_eq_true in Ht. subst d.
      split; [by eapply lookup_lt_Some | done].
    + apply list_lookup_fmap_Some in Hk as (s & Ht & _). discriminate Ht.
Qed.

Lemma dated_rows_key (ds : list stamp) (scores : list Z) (i : nat) (d : date) :
  length scores = length ds ->
  ds !! i = Some (Day d) ->
  d ∈ map fst (dated_rows ds scores).
Proof.
  revert scores i. induction ds as [| c ds IH]; intros [| z scores] i Hlen Hi;
    simpl in *; try done.
  destruct i as [| i]; simpl in Hi.
  - injection Hi as ->. simpl. apply list_elem_of_here.
  - assert (Hs : d ∈ map fst (dated_rows ds scores)) by (apply (IH _ i); [lia | done]).
    destruct c; simpl; [by apply list_elem_of_further | done].
Qed.



(** ** What the chart adds up to *)

Lemma add_to_group_sum {K} (ltb : K -> K -> bool) (k : K) (v : Z) (g : list (K * Z)) :
  total_points (map snd (add_to_group ltb k v g)) = (total_points (map snd g) + v)%Z.
Proof.
  unfold total_points. induction g as [| [k' v'] g IH]; cbn; [lia |].
  destruct (ltb k k'); cbn; [lia |].
  destruct (ltb k' k); cbn; [| lia].
  unfold total_points in IH. rewrite IH. lia.
Qed.

Lemma groupby_sum_total {K} (ltb : K -> K -> bool) (rows : list (K * Z)) :
  total_points (map snd (groupby_sum ltb rows)) = total_points (map snd rows).
Proof.
  unfold groupby_sum.
  assert (H : forall g, total_points (map snd (foldl (fun g kv => add_to_group ltb kv.1 kv.2 g)
                                                 g rows))
                        = (total_points (map snd g) + total_points (map snd rows))%Z).
  { induction rows as [| [k v] rows IH]; intros g; cbn [foldl map].
    - unfold total_points; cbn; lia.
    - rewrite IH, add_to_group_sum. unfold total_points; cbn; lia. }
  rewrite H. unfold total_points; cbn; lia.
Qed.

Lemma dated_rows_total (ds : list stamp) (scores : list Z) :
  Forall (fun z => (0 <= z)%Z) scores ->
  (0 <= total_points (map snd (dated_rows ds scores)) <= total_points scores)%Z
  /\ (length ds = length scores -> Forall (fun s => s <> NaT) ds ->
      total_points (map snd (dated_rows ds scores)) = total_points scores).
Proof.
  unfold total_points. intros Hpos. revert ds.
  induction Hpos as [| z scores Hz Hpos IH]; intros ds.
  - destruct ds as [| [d |] ds]; cbn; (split; [lia | done]).
  - assert (Htot : (0 <= foldr Z.add 0 scores)%Z).
    { clear IH. induction Hpos; cbn; lia. }
    destruct ds as [| [d |] ds]; cbn.
    + split; [lia | done].
    + destruct (IH ds) as [Hle Heq]. split; [lia |].
      intros [= Hlen] [_ Hall]%Forall_cons. rewrite Heq by done. done.
    + destruct (IH ds) as [Hle Heq]. split; [lia |].
      intros _ [Hn _]%Forall_cons. done.
Qed.

Lemma texted_rows_total (raw : list cell) (scores : list Z) :
  Forall (fun z => (0 <= z)%Z) scores ->
  (0 <= total_points (map snd (texted_rows raw scores)) <= total_points scores)%Z
  /\ (length raw = length scores -> Forall (fun c => is_text c = true) raw ->
      total_points (map snd (texted_rows raw scores)) = total_points scores).
Proof.
  unfold total_points. intros Hpos. revert raw.
  induction Hpos as [| z scores Hz Hpos IH]; intros raw.
  - destruct raw as [| [s | x |] raw]; cbn; (split; [lia | done]).
  - assert (Htot : (0 <= foldr Z.add 0 scores)%Z).
    { clear IH. induction Hpos; cbn; lia. }
    destruct raw as [| [s | x |] raw]; cbn.
    + split; [lia | done].
    + destruct (IH raw) as [Hle Heq]. split; [lia |].
      intros [= Hlen] [_ Hall]%Forall_cons. rewrite Heq by done. done.
    + destruct (IH raw) as [Hle Heq]. split; [lia |].
      intros _ [Hn _]%Forall_cons. done.
    + destruct (IH raw) as [Hle Heq]. split; [lia |].
      intros _ [Hn _]%Forall_cons. done.
Qed.

Lemma numbered_rows_total (raw : list cell) (scores : list Z) :
  Forall (fun z => (0 <= z)%Z) scores ->
  (0 <= total_points (map snd (numbered_rows raw scores)) <= total_points scores)%Z
  /\ (length raw = length scores -> Forall (fun c => is_number c = true) raw ->
      total_points (map snd (numbered_rows raw scores)) = total_points scores).
Proof.
  unfold total_points. intros Hpos. revert raw.
  induction Hpos as [| z scores Hz Hpos IH]; intros raw.
  - destruct raw as [| [s | x |] raw]; cbn; (split; [lia | done]).
  - assert (Htot : (0 <= foldr Z.add 0 scores)%Z).
    { clear IH. induction Hpos; cbn; lia. }
    destruct raw as [| [s | x |] raw]; cbn.
    + split; [lia | done].
    + destruct (IH raw) as [Hle Heq]. split; [lia |].
      intros _ [Hn _]%Forall_cons. done.
    + destruct (IH raw) as [Hle Heq]. split; [lia |].
      intros [= Hlen] [_ Hall]%Forall_cons. rewrite Heq by done. done.
    + destruct (IH raw) as [Hle Heq]. split; [lia |].
      intros _ [Hn _]%Forall_cons. done.
Qed.

Lemma all_keyed (raw : list cell) (f g : cell -> bool) :
  (forall c, c <> NaN -> g c = false -> f c = true) ->
  Forall (fun c => c <> NaN) raw -> existsb g raw = false ->
  Forall (fun c => f c = true) raw.
Proof.
  intros Hfg Hall Hno. apply existsb_false_Forall in Hno.
  rewrite Forall_forall in *. intros c Hc. apply Hfg; [by apply Hall | by apply Hno].
Qed.

(** X11.  Grouping loses no point: the values plotted by the chart add up
    to the scores of the rows that have a key.  Whenever line 198 gives a
    table (it does unless the raw [Data] column was kept and holds both a
    text and a number) and the scores are not negative, the plotted total
    is at most "Punti totali", and it is "Punti totali" when every row has a
    key (no [NaT] among the parsed dates, no missing cell in a [Data]
    column kept as it is). *)
Theorem daily_values_total (pc : parsed_column) (scores : list Z) :
  Forall (fun z => (0 <= z)%Z) scores ->
  (daily pc scores = None
   <-> exists raw, pc = Opaque_text raw
                   /\ existsb is_text raw = true /\ existsb is_number raw = true)
  /\ forall t,
       daily pc scores = Some t ->
       (0 <= total_points (trend_values t) <= total_points scores)%Z
       /\ (match pc with
           | Dates ds => length ds = length scores /\ Forall (fun s => s <> NaT) ds
           | Opaque_text raw =>
             length raw = length scores /\ Forall (fun c => c <> NaN) raw
           end ->
           total_points (trend_values t) = total_points scores).
Proof.
  intros Hpos. destruct pc as [ds | raw]; cbn [daily].
  - split; [split; [done | by intros (raw & ? & _)] |].
    intros t [= <-]. cbn [trend_values]. rewrite groupby_sum_total.
    destruct (dated_rows_total ds scores Hpos) as [Hle Heq].
    split; [done |]. intros [? ?]. by apply Heq.
  - destruct (existsb is_number raw) eqn:Hn; cbn [negb].
    + destruct (existsb is_text raw) eqn:Ht; cbn [negb].
      * split; [| done]. split; [| done]. intros _. by exists raw.
      * split; [split; [done |]; intros (raw' & [= <-] & Ht' & _); congruence |].
        intros t [= <-]. cbn [trend_values]. rewrite groupby_sum_total.
        destruct (numbered_rows_total raw scores Hpos) as [Hle Heq].
        split; [done |]. intros [Hlen Hall]. apply Heq; [done |].
        apply (all_keyed raw is_number is_text); [| done | done].
        by intros [s | x |].
    + split; [split; [done |]; intros (raw' & [= <-] & _ & Hn'); congruence |].
      intros t [= <-]. cbn [trend_values]. rewrite groupby_sum_total.
      destruct (texted_rows_total raw scores Hpos) as [Hle Heq].
      split; [done |]. intros [Hlen Hall]. apply Heq; [done |].
      apply (all_keyed raw is_text is_number); [| done | done].
      by intros [s | x |].
Qed.

Lemma daily_values_total_witness :
  (daily (Dates [Day (mkDate 2026 11 3); NaT; Day (mkDate 2026 11 3)]) [10; 5; 5]%Z = None
   <-> exists raw,
         Dates [Day (mkDate 2026 11 3); NaT; Day (mkDate 2026 11 3)] = Opaque_text raw
         /\ existsb is_text raw = true /\ existsb is_number raw = true)
  /\ forall t,
       daily (Dates [Day (mkDate 2026 11 3); NaT; Day (mkDate 2026 11 3)]) [10; 5; 5]%Z
         = Some t ->
       (0 <= total_points (trend_values t) <= total_points [10; 5; 5]%Z)%Z
       /\ (length [Day (mkDate 2026 11 3); NaT; Day (mkDate 2026 11 3)]
             = length [10; 5; 5]%Z
           /\ Forall (fun s => s <> NaT)
                     [Day (mkDate 2026 11 3); NaT; Day (mkDate 2026 11 3)] ->
           total_points (trend_values t) = total_points [10; 5; 5]%Z).
Proof.
  apply (daily_values_total (Dates [Day (mkDate 2026 11 3); NaT; Day (mkDate 2026 11 3)])
           [10; 5; 5]%Z).
  repeat constructor; lia.
Defined.

(** The plotted total of that table, and of a table keyed by text. *)
Example daily_values_examples :
  (trend_values <$> daily (Dates [Day (mkDate 2026 11 3); NaT; Day (mkDate 2026 11 3)])
                          [10; 5; 5]%Z) = Some [15%Z]
  /\ (trend_values <$> daily (Opaque_text [Str u8"boh"; Str u8"2026-11-03"]) [10; 5]%Z)
     = Some [5%Z; 10%Z]
  /\ (trend_values <$> daily (Opaque_text [Num five; Num five]) [10; 5]%Z) = Some [15%Z]
  /\ daily (Opaque_text [Num five; Str u8"boh"]) [10; 5]%Z = None.
Proof. vm_compute. repeat split; reflexivity. Qed.
